(** * WebRTC client / signaling relay / ROS2 frame pipeline

    A shallow embedding of the four stateful pieces of the repository:

    - [Relay]     the WebSocket signaling relay (server [wss] module: [init],
                  [findClientID], [clearClient], [onMessage], [send]);
    - [Streamer]  the browser-side frame producer ([ROS2ImageStreamer]);
    - [Manager]   the browser-side [DroneStreamManager] / [DroneStream];
    - [Publisher] the node-side frame consumer
                  ([ROS2ImagePublisherCompressed]).

    JavaScript objects become records, object identity becomes an address,
    exceptions become an explicit completion type, [Date.now()] and the other
    answers of the environment become arguments of the handlers. *)

From Stdlib Require Import ZArith QArith Qround Lia Bool List.
From stdpp Require Import gmap strings list.

Local Open Scope Z_scope.

(** ** Completions: a handler returns normally or throws *)

Inductive error := TypeError | KeyError | PublishError.

Inductive completion (A : Type) :=
| Normal (a : A)
| Throw (e : error).
Arguments Normal {A} a.
Arguments Throw {A} e.

(** Sequencing stops at the first throw; [x ← c; k] is stdpp's notation. *)
#[export] Instance completion_bind : MBind completion := fun A B k c =>
  match c with
  | Normal a => k a
  | Throw e => Throw e
  end.

(** [x < y] on rationals. *)
Definition Qltb (x y : Q) : bool := negb (Qle_bool y x).

(** * The signaling relay *)

Module Relay.

(** What [JSON.parse] returns. Numbers are kept as rationals: the relay only
    tests them for truthiness. *)
#[warnings="-register-all"]
Inductive json :=
| JNull
| JBool (b : bool)
| JNum (q : Q)
| JStr (s : string)
| JArr (items : list json)
| JObj (fields : list (string * json)).

(** A JavaScript value seen by the handler: [None] is [undefined]. *)
Definition value := option json.

(** Own properties of a parsed object, in insertion order. *)
Fixpoint obj_get (k : string) (fields : list (string * json)) : option json :=
  match fields with
  | [] => None
  | (k', v) :: rest => if String.eqb k k' then Some v else obj_get k rest
  end.

Fixpoint obj_set (k : string) (v : json) (fields : list (string * json))
  : list (string * json) :=
  match fields with
  | [] => [(k, v)]
  | (k', v') :: rest =>
      if String.eqb k k' then (k', v) :: rest else (k', v') :: obj_set k v rest
  end.

(** [v.k] for the property names the relay reads ([event], [data],
    [socketID]): none of them is inherited by strings, numbers, booleans or
    arrays, and reading any property of [null] or [undefined] throws. *)
Definition getProp (v : value) (k : string) : completion value :=
  match v with
  | None | Some JNull => Throw TypeError
  | Some (JObj fields) => Normal (obj_get k fields)
  | Some _ => Normal None
  end.

(** [v[k] = x] in a non-strict CommonJS module: on an object it creates or
    overwrites the own property; on [null] and [undefined] it throws; on a
    string, number or boolean it is silently ignored; on an array it adds a
    named property that [JSON.stringify] does not serialise, so the value as
    later sent is the array itself. *)
Definition setProp (v : value) (k : string) (x : json) : completion value :=
  match v with
  | None | Some JNull => Throw TypeError
  | Some (JObj fields) => Normal (Some (JObj (obj_set k x fields)))
  | Some j => Normal (Some j)
  end.

(** [if (v)] *)
Definition truthy (v : value) : bool :=
  match v with
  | None | Some JNull => false
  | Some (JBool b) => b
  | Some (JNum q) => negb (Qeq_bool q 0)
  | Some (JStr s) => negb (String.eqb s "")
  | Some (JArr _) | Some (JObj _) => true
  end.

Definition is_string (v : value) (s : string) : bool :=
  match v with
  | Some (JStr s') => String.eqb s' s
  | _ => false
  end.

(** A connection is an object; it is identified by its address. *)
Definition socket := nat.

(** [const clients = new Map()]: keys in insertion order. *)
Definition registry := list (string * socket).

Fixpoint Map_set (k : string) (v : socket) (m : registry) : registry :=
  match m with
  | [] => [(k, v)]
  | (k', v') :: rest =>
      if String.eqb k k' then (k', v) :: rest else (k', v') :: Map_set k v rest
  end.

Fixpoint Map_get_str (k : string) (m : registry) : option socket :=
  match m with
  | [] => None
  | (k', v) :: rest => if String.eqb k k' then Some v else Map_get_str k rest
  end.

(** [clients.get(key)]: every key of the map is a string, so any other
    value finds nothing. *)
Definition Map_get (key : value) (m : registry) : option socket :=
  match key with
  | Some (JStr k) => Map_get_str k m
  | _ => None
  end.

Fixpoint Map_delete_str (k : string) (m : registry) : registry :=
  match m with
  | [] => []
  | (k', v) :: rest =>
      if String.eqb k k' then rest else (k', v) :: Map_delete_str k rest
  end.

(** [clients.delete(key)] where [key] is a string or [null]. *)
Definition Map_delete (key : option string) (m : registry) : registry :=
  match key with
  | Some k => Map_delete_str k m
  | None => m
  end.

(** [findClientID]: the first key whose value is the very connection;
    [None] is the [null] it returns otherwise. *)
Fixpoint findClientID (map : registry) (val : socket) : option string :=
  match map with
  | [] => None
  | (k, v) :: rest => if Nat.eqb v val then Some k else findClientID rest val
  end.

(** The relay: the registry and, per connection, the frames handed to
    [wsClient.send] (the value given to [JSON.stringify]). *)
Record relay := mkRelay {
  clients : registry;
  outbox : list (socket * json)
}.

(** The ['connection'] handler of [init]. The identifier
    [Math.random().toString(36).substring(2, 15)] is an answer of the
    environment, [rnd]. Returns the [id] it assigned. *)
Definition connection (sock : socket) (rnd : string) (r : relay) : string * relay :=
  let id := rnd in
  (id, mkRelay (Map_set id sock (clients r)) (outbox r)).

(** [send(wsClient, type, body)]; [JSON.stringify] leaves out a property
    whose value is [undefined]. *)
Definition send (wsClient : socket) (type : string) (body : value) (r : relay) : relay :=
  let frame :=
    match body with
    | Some b => JObj [("event", JStr type); ("data", b)]
    | None => JObj [("event", JStr type)]
    end in
  mkRelay (clients r) (outbox r ++ [(wsClient, frame)]).

Definition clearClient (sock : socket) (r : relay) : completion relay :=
  let socketClientID := findClientID (clients r) sock in
  Normal (mkRelay (Map_delete socketClientID (clients r)) (outbox r)).

Definition id_value (id : option string) : json :=
  match id with
  | Some s => JStr s
  | None => JNull
  end.

(** The requested socket id: the root [socketID] when truthy, else
    [data.socketID]. *)
Definition requestedSocketID (parsedMessage : json) : completion value :=
  data ← getProp (Some parsedMessage) "data";
  root ← getProp (Some parsedMessage) "socketID";
  if truthy root then Normal root else getProp data "socketID".

(** [onMessage], entered with the result of [JSON.parse(message)]. *)
Definition onMessage (sock : socket) (parsedMessage : json) (r : relay)
  : completion relay :=
  type ← getProp (Some parsedMessage) "event";
  data ← getProp (Some parsedMessage) "data";
  let socketClientID := findClientID (clients r) sock in
  socketID ← requestedSocketID parsedMessage;
  if is_string type "webrtc_msg" then
    let wsClient := Map_get socketID (clients r) in
    data' ← setProp data "socketID" (id_value socketClientID);
    match wsClient with
    | Some target => Normal (send target "webrtc_msg" data' r)
    | None => Normal r
    end
  else Normal r.

Definition onClose (sock : socket) (r : relay) : completion relay :=
  clearClient sock r.

(** *** What the properties below talk about *)

(** The envelope [m] sent on [sock] is forwarded: it asks for a target the
    registry knows, and the handler hands that target one ['webrtc_msg']
    frame whose [data.socketID] is the id found for [sock] by
    [findClientID]. *)
Definition forwarded_with_sender (sock : socket) (m : json) (r : relay) : Prop :=
  ∃ (t : value) (target : socket) (data' : json),
    requestedSocketID m = Normal t ∧
    Map_get t (clients r) = Some target ∧
    onMessage sock m r = Normal (send target "webrtc_msg" (Some data') r) ∧
    getProp (Some data') "socketID"
      = Normal (Some (id_value (findClientID (clients r) sock))).

(** Connections opening and closing, in the order the event loop handles
    them. *)
Inductive event :=
| Connect (sock : socket) (rnd : string)
| Close (sock : socket).

(** The relay together with the connections that are open and the id the
    ['connection'] handler gave each of them. *)
Definition world : Type := relay * list (string * socket).

Definition settle (c : completion relay) (r : relay) : relay :=
  match c with
  | Normal r' => r'
  | Throw _ => r
  end.

(** The entries of the connections other than [s]. *)
Definition others (s : socket) : string * socket → bool :=
  fun p => negb (Nat.eqb p.2 s).

Definition step (w : world) (e : event) : world :=
  let '(r, live) := w in
  match e with
  | Connect sock rnd =>
      let '(id, r') := connection sock rnd r in (r', live ++ [(id, sock)])
  | Close sock =>
      (settle (onClose sock r) r,
       List.filter (others sock) live)
  end.

Definition run (es : list event) (w : world) : world := fold_left step es w.

Definition start : world := (mkRelay [] [], []).



(** Two clients [a1] (connection 1) and [b2] (connection 2). *)
Definition two_clients : relay := mkRelay [("a1", 1%nat); ("b2", 2%nat)] [].

(** [{"event":"webrtc_msg","socketID":"b2","data":"hello"}] *)
Definition string_payload : json :=
  JObj [("event", JStr "webrtc_msg"); ("socketID", JStr "b2");
        ("data", JStr "hello")].

(** [{"event":"webrtc_msg","socketID":"zz","data":null}] *)
Definition null_payload : json :=
  JObj [("event", JStr "webrtc_msg"); ("socketID", JStr "zz"); ("data", JNull)].

(** [{"event":"webrtc_msg","socketID":"b2",
      "data":{"type":"offer","sdp":"v=0","socketID":"forged"}}] *)
Definition offer_to_b2 : json :=
  JObj [("event", JStr "webrtc_msg"); ("socketID", JStr "b2");
        ("data", JObj [("type", JStr "offer"); ("sdp", JStr "v=0");
                       ("socketID", JStr "forged")])].

(** [{"event":"webrtc_msg","socketID":"zz","data":{"type":"offer"}}] *)
Definition offer_to_nobody : json :=
  JObj [("event", JStr "webrtc_msg"); ("socketID", JStr "zz");
        ("data", JObj [("type", JStr "offer")])].

(** Two connections that draw the same id. *)
Definition colliding : list event := [Connect 1%nat "k3j9x"; Connect 2%nat "k3j9x"].


(** [null] or [undefined]: the values whose properties cannot be read or
    written. *)
Definition nullish (v : value) : bool :=
  match v with
  | None | Some JNull => true
  | Some _ => false
  end.

End Relay.

(** * The frame producer (browser side) *)

Module Streamer.

(** [WebSocket.readyState] *)
Inductive readyState := CONNECTING | OPEN | CLOSING | CLOSED.

Definition readyState_eqb (a b : readyState) : bool :=
  match a, b with
  | CONNECTING, CONNECTING | OPEN, OPEN | CLOSING, CLOSING | CLOSED, CLOSED => true
  | _, _ => false
  end.

(** What a handler can observe of the side channel. *)
Record WebSocket := mkWebSocket {
  ws_readyState : readyState;
  bufferedAmount : Z
}.

(** What a handler can observe of the [<video>] element; the browser
    changes it between handlers. *)
Record VideoElement := mkVideo {
  v_readyState : Z;
  videoWidth : Z;
  videoHeight : Z
}.

(** The [data] of an [image_frame] message. *)
Record ImageFrame := mkFrame {
  imageData : string;
  width : Z;
  height : Z;
  encoding : string;
  timestamp : Z;
  captureTime : Z
}.

(** Calls on browser resources, in the order they are made. *)
Inductive effect :=
| AppendCanvas                          (* document.body.appendChild(canvas) *)
| SetInterval (id : positive) (fps : Z) (* setInterval(tick, 1000 / fps) *)
| ClearInterval (id : positive)
| WsSend (frame : ImageFrame)           (* ws.send({type: 'image_frame', data}) *)
| WsClose
| RemoveCanvas.                         (* canvas.parentNode.removeChild(canvas) *)

Record ROS2ImageStreamer := mkStreamer {
  videoElement : option VideoElement;
  ws : option WebSocket;
  canvasAttached : bool;                (* canvas.parentNode is not null *)
  canvasWidth : Z;
  canvasHeight : Z;
  isStreaming : bool;
  frameRate : Z;
  intervalId : option positive;
  lastFrameTime : Z;
  frameDropCount : Z;
  scaleFactor : Q;
  quality : Q
}.

Definition set_ws (w : option WebSocket) (s : ROS2ImageStreamer) :=
  mkStreamer (videoElement s) w (canvasAttached s) (canvasWidth s)
    (canvasHeight s) (isStreaming s) (frameRate s) (intervalId s)
    (lastFrameTime s) (frameDropCount s) (scaleFactor s) (quality s).

Definition set_canvasAttached (b : bool) (s : ROS2ImageStreamer) :=
  mkStreamer (videoElement s) (ws s) b (canvasWidth s)
    (canvasHeight s) (isStreaming s) (frameRate s) (intervalId s)
    (lastFrameTime s) (frameDropCount s) (scaleFactor s) (quality s).

Definition set_canvasSize (w h : Z) (s : ROS2ImageStreamer) :=
  mkStreamer (videoElement s) (ws s) (canvasAttached s) w h
    (isStreaming s) (frameRate s) (intervalId s)
    (lastFrameTime s) (frameDropCount s) (scaleFactor s) (quality s).

Definition set_isStreaming (b : bool) (s : ROS2ImageStreamer) :=
  mkStreamer (videoElement s) (ws s) (canvasAttached s) (canvasWidth s)
    (canvasHeight s) b (frameRate s) (intervalId s)
    (lastFrameTime s) (frameDropCount s) (scaleFactor s) (quality s).

Definition set_frameRate (f : Z) (s : ROS2ImageStreamer) :=
  mkStreamer (videoElement s) (ws s) (canvasAttached s) (canvasWidth s)
    (canvasHeight s) (isStreaming s) f (intervalId s)
    (lastFrameTime s) (frameDropCount s) (scaleFactor s) (quality s).

Definition set_intervalId (i : option positive) (s : ROS2ImageStreamer) :=
  mkStreamer (videoElement s) (ws s) (canvasAttached s) (canvasWidth s)
    (canvasHeight s) (isStreaming s) (frameRate s) i
    (lastFrameTime s) (frameDropCount s) (scaleFactor s) (quality s).

Definition set_lastFrameTime (t : Z) (s : ROS2ImageStreamer) :=
  mkStreamer (videoElement s) (ws s) (canvasAttached s) (canvasWidth s)
    (canvasHeight s) (isStreaming s) (frameRate s) (intervalId s)
    t (frameDropCount s) (scaleFactor s) (quality s).

Definition set_frameDropCount (n : Z) (s : ROS2ImageStreamer) :=
  mkStreamer (videoElement s) (ws s) (canvasAttached s) (canvasWidth s)
    (canvasHeight s) (isStreaming s) (frameRate s) (intervalId s)
    (lastFrameTime s) n (scaleFactor s) (quality s).

(** [new ROS2ImageStreamer(videoElement)], including [setupCanvas()]; a
    fresh canvas is 300 by 150. *)
Definition new_ROS2ImageStreamer (video : option VideoElement)
  : ROS2ImageStreamer * list effect :=
  (mkStreamer video None true 300 150 false 8 None 0 0 (5 # 10) (3 # 10),
   [AppendCanvas]).

(** [connect()]: [opened] tells whether the socket opens (the promise
    resolves) or fails (it rejects). *)
Definition connect (opened : bool) (s : ROS2ImageStreamer) : ROS2ImageStreamer :=
  set_ws (Some (mkWebSocket (if opened then OPEN else CLOSED) 0)) s.

(** The [onclose] handler installed by [connect()]. *)
Definition onclose (s : ROS2ImageStreamer) : ROS2ImageStreamer :=
  set_isStreaming false
    (set_ws (option_map (fun w => mkWebSocket CLOSED (bufferedAmount w)) (ws s)) s).

Definition ws_open (s : ROS2ImageStreamer) : bool :=
  match ws s with
  | Some sock => readyState_eqb (ws_readyState sock) OPEN
  | None => false
  end.

(** [startStreaming(frameRate)]; [id] is what [setInterval] returns. *)
Definition startStreaming (rate : Z) (id : positive) (s : ROS2ImageStreamer)
  : ROS2ImageStreamer * list effect :=
  if isStreaming s then (s, [])
  else if negb (ws_open s) then (s, [])
  else match videoElement s with
  | None => (s, [])
  | Some _ =>
      let s1 := set_frameDropCount 0 (set_lastFrameTime 0
                  (set_isStreaming true (set_frameRate rate s))) in
      (set_intervalId (Some id) s1, [SetInterval id rate])
  end.

Definition stopStreaming (s : ROS2ImageStreamer) : ROS2ImageStreamer * list effect :=
  if negb (isStreaming s) then (s, [])
  else
    let s1 := set_isStreaming false s in
    match intervalId s1 with
    | Some id => (set_intervalId None s1, [ClearInterval id])
    | None => (s1, [])
    end.

(** [timeSinceLastFrame < expectedInterval * 0.8] with
    [expectedInterval = 1000 / frameRate]. Doubles are read as exact
    rationals, except for the division by zero, which gives [Infinity]. *)
Definition expectedInterval (rate : Z) : Q := 1000 / inject_Z rate.

Definition tooSoon (timeSinceLastFrame rate : Z) : bool :=
  if (rate =? 0)%Z then true
  else Qltb (inject_Z timeSinceLastFrame) (expectedInterval rate * (8 # 10)).

Definition drop (s : ROS2ImageStreamer) : ROS2ImageStreamer :=
  set_frameDropCount (frameDropCount s + 1) s.

Section Capture.

(** Lines 152 to 160 of the tick: smoothing, [drawImage], [toDataURL] and
    the split of the data URL; [None] when one of them throws. *)
Variable toDataURL : VideoElement -> Z -> Z -> Q -> option string.

Definition captureAndSendFrame (now : Z) (s : ROS2ImageStreamer)
  : ROS2ImageStreamer * list effect :=
  match isStreaming s, videoElement s, ws s with
  | true, Some video, Some sock =>
      if 1024 * 50 <? bufferedAmount sock then (drop s, [])
      else
        let timeSinceLastFrame := now - lastFrameTime s in
        if tooSoon timeSinceLastFrame (frameRate s) then (drop s, [])
        else if v_readyState video <? 2 then (s, [])
        else if ((videoWidth video =? 0) || (videoHeight video =? 0))%Z then (s, [])
        else
          let s1 := set_lastFrameTime now s in
          let targetWidth := Qfloor (inject_Z (videoWidth video) * scaleFactor s) in
          let targetHeight := Qfloor (inject_Z (videoHeight video) * scaleFactor s) in
          let s2 := set_canvasSize targetWidth targetHeight s1 in
          match toDataURL video targetWidth targetHeight (quality s) with
          | None => (s2, [])
          | Some base64Data =>
              let message :=
                mkFrame base64Data targetWidth targetHeight "jpeg" now now in
              if readyState_eqb (ws_readyState sock) OPEN
              then (s2, [WsSend message])
              else (s2, [])
          end
  | _, _, _ => (s, [])
  end.

End Capture.

Definition disconnect (s : ROS2ImageStreamer) : ROS2ImageStreamer * list effect :=
  let '(s1, e1) := stopStreaming s in
  let '(s2, e2) :=
    match ws s1 with
    | Some _ => (set_ws None s1, [WsClose])
    | None => (s1, [])
    end in
  let '(s3, e3) :=
    if canvasAttached s2 then (set_canvasAttached false s2, [RemoveCanvas])
    else (s2, []) in
  (s3, e1 ++ e2 ++ e3).

(** A streamer in the middle of a 10 fps stream: a playing 640 by 480
    video, an open socket with an empty buffer, last frame taken at 1000 ms. *)
Definition streaming_at_10fps (sock : WebSocket) (video : VideoElement)
  : ROS2ImageStreamer :=
  mkStreamer (Some video) (Some sock) true 320 240 true 10 (Some 1%positive)
    1000 0 (5 # 10) (3 # 10).

Definition playing_video : VideoElement := mkVideo 4 640 480.

(** An encoder that always succeeds. *)
Definition jpeg_stub : VideoElement -> Z -> Z -> Q -> option string :=
  fun _ _ _ _ => Some "/9j/4AAQ".

(** *** The rest of the streamer's interface *)

Definition set_scaleFactor (q : Q) (s : ROS2ImageStreamer) :=
  mkStreamer (videoElement s) (ws s) (canvasAttached s) (canvasWidth s)
    (canvasHeight s) (isStreaming s) (frameRate s) (intervalId s)
    (lastFrameTime s) (frameDropCount s) q (quality s).

Definition set_quality (q : Q) (s : ROS2ImageStreamer) :=
  mkStreamer (videoElement s) (ws s) (canvasAttached s) (canvasWidth s)
    (canvasHeight s) (isStreaming s) (frameRate s) (intervalId s)
    (lastFrameTime s) (frameDropCount s) (scaleFactor s) q.

(** What a [setTimeout(..., 100)] of the streamer will do when it fires:
    [startStreaming(frameRate)] with the rate captured by the closure
    ([setFrameRate]), or [startStreaming(this.frameRate)] with the rate
    read at that time ([adjustPerformance]). *)
Inductive restart :=
| RestartWith (rate : Z)
| RestartCurrent.

(** [setFrameRate(frameRate)]: the new state, the calls made, and the
    restart scheduled, if any. *)
Definition setFrameRate (rate : Z) (s : ROS2ImageStreamer)
  : ROS2ImageStreamer * list effect * option restart :=
  let s1 := set_frameRate rate s in
  if isStreaming s1 then
    let '(s2, e) := stopStreaming s1 in (s2, e, Some (RestartWith rate))
  else (s1, [], None).

(** A scheduled restart fires; [id] is what [setInterval] returns. *)
Definition fire (r : restart) (id : positive) (s : ROS2ImageStreamer)
  : ROS2ImageStreamer * list effect :=
  match r with
  | RestartWith rate => startStreaming rate id s
  | RestartCurrent => startStreaming (frameRate s) id s
  end.

Definition getConnectionStatus (s : ROS2ImageStreamer) : string :=
  match ws s with
  | None => "disconnected"
  | Some sock =>
      match ws_readyState sock with
      | CONNECTING => "connecting"
      | OPEN => "connected"
      | CLOSING => "closing"
      | CLOSED => "closed"
      end
  end.

(** [isConnected()], as a condition: [null] (no socket) counts as false. *)
Definition isConnected (s : ROS2ImageStreamer) : bool :=
  match ws s with
  | Some sock => readyState_eqb (ws_readyState sock) OPEN
  | None => false
  end.

Record Stats := mkStats {
  stats_frameRate : Z;
  stats_isStreaming : bool;
  stats_frameDropCount : Z;
  stats_connectionStatus : string;
  stats_bufferAmount : Z;
  stats_lastFrameTime : Z;
  stats_timeSinceLastFrame : Z
}.

(** [getStats()] called at [now]. *)
Definition getStats (now : Z) (s : ROS2ImageStreamer) : Stats :=
  mkStats (frameRate s) (isStreaming s) (frameDropCount s)
    (getConnectionStatus s)
    (match ws s with Some sock => bufferedAmount sock | None => 0 end)
    (lastFrameTime s) (now - lastFrameTime s).

Definition resetStats (s : ROS2ImageStreamer) : ROS2ImageStreamer :=
  set_lastFrameTime 0 (set_frameDropCount 0 s).

Record setting := mkSetting {
  setting_frameRate : Z;
  setting_scaleFactor : Q;
  setting_quality : Q
}.

Definition high_quality : setting := mkSetting 12 (8 # 10) (7 # 10).
Definition balanced : setting := mkSetting 8 (5 # 10) (5 # 10).
Definition low_latency : setting := mkSetting 5 (3 # 10) (3 # 10).

(** The own properties of the [settings] table. *)
Definition settings (level : string) : option setting :=
  if String.eqb level "high_quality" then Some high_quality
  else if String.eqb level "balanced" then Some balanced
  else if String.eqb level "low_latency" then Some low_latency
  else None.

(** Names that [settings[level]] finds on [Object.prototype] instead: the
    lookup then yields a function or an object without the three fields. *)
Definition inherited : list string :=
  ["constructor"; "hasOwnProperty"; "isPrototypeOf"; "propertyIsEnumerable";
   "toLocaleString"; "toString"; "valueOf"; "__proto__";
   "__defineGetter__"; "__defineSetter__"; "__lookupGetter__";
   "__lookupSetter__"].

(** [adjustPerformance(level)]. For a level in [inherited] the three
    fields become [undefined], which the record cannot hold: [None]. *)
Definition adjustPerformance (level : string) (s : ROS2ImageStreamer)
  : option (ROS2ImageStreamer * list effect * option restart) :=
  if existsb (String.eqb level) inherited then None
  else
    let chosen := default balanced (settings level) in
    let s1 := set_quality (setting_quality chosen)
                (set_scaleFactor (setting_scaleFactor chosen)
                   (set_frameRate (setting_frameRate chosen) s)) in
    if isStreaming s1 then
      let '(s2, e) := stopStreaming s1 in Some (s2, e, Some RestartCurrent)
    else Some (s1, [], None).

(** *** A run of ticks *)

(** What the browser shows of the video and of the socket when a tick
    comes at [tick_now]. *)
Record tick := mkTick {
  tick_now : Z;
  tick_video : VideoElement;
  tick_sock : WebSocket
}.

(** The streamer with its video element and its socket, when it has them,
    in the state the browser put them in. *)
Definition observe (video : VideoElement) (sock : WebSocket)
    (s : ROS2ImageStreamer) : ROS2ImageStreamer :=
  mkStreamer (option_map (fun _ => video) (videoElement s))
    (option_map (fun _ => sock) (ws s)) (canvasAttached s) (canvasWidth s)
    (canvasHeight s) (isStreaming s) (frameRate s) (intervalId s)
    (lastFrameTime s) (frameDropCount s) (scaleFactor s) (quality s).

Definition sentFrames (es : list effect) : list ImageFrame :=
  flat_map (fun e => match e with WsSend f => [f] | _ => [] end) es.

Section Ticks.

Variable toDataURL : VideoElement -> Z -> Z -> Q -> option string.

(** The ticks of the list, one after the other: the streamer at the end
    and the frames sent, in order. *)
Fixpoint runTicks (ts : list tick) (s : ROS2ImageStreamer)
  : ROS2ImageStreamer * list ImageFrame :=
  match ts with
  | [] => (s, [])
  | t :: rest =>
      let r := captureAndSendFrame toDataURL (tick_now t)
                 (observe (tick_video t) (tick_sock t) s) in
      let r' := runTicks rest r.1 in
      (r'.1, sentFrames r.2 ++ r'.2)
  end.

End Ticks.

(** Each frame is at least 80% of the frame interval after the one before
    it, the first after [last]: [(t - last) * rate >= 800]. *)
Fixpoint paced (rate last : Z) (frames : list ImageFrame) : Prop :=
  match frames with
  | [] => True
  | f :: rest => 800 ≤ (timestamp f - last) * rate ∧ paced rate (timestamp f) rest
  end.

End Streamer.

(** * The stream manager (browser side) *)

Module Manager.
Import Streamer.

(** [RTCPeerConnection.connectionState] *)
Inductive connectionState :=
| new | checking | connected | disconnected | closed | failed.

(** A [DroneStream]. [ros2Streamer] is the address of a streamer object,
    [None] for [null]. [peerConnection] is [None] when the field is
    [undefined] (the constructor's [try] failed) or [null]. *)
Record DroneStream := mkDroneStream {
  droneSocketID : string;
  streamObj : option VideoElement;
  ros2Streamer : option nat;
  peerConnection : option connectionState
}.

(** Calls made on browser resources, tagged with the object they are made on. *)
Inductive call :=
| OnStreamer (addr : nat) (e : effect)
| PcClose (stream : nat)
| SetTimeout (stream : nat).

(** The client. [ongoingStreams] holds the own properties of the static
    dictionary, a plain object; [prototype] is what that object inherits
    from: [None] for [Object.prototype], as it is created, or the address of
    a [DroneStream] once one has been assigned to the name ["__proto__"].
    Then the objects allocated so far (address = position; objects are
    never freed in the model, an object no longer referenced simply stays),
    the pending one-second timeouts of [initializeROS2Streaming], the
    pending [await]s of [connect()] (stream, streamer) and the calls made. *)
Record client := mkClient {
  ongoingStreams : gmap string nat;
  prototype : option nat;
  streams : list DroneStream;
  streamers : list ROS2ImageStreamer;
  timeouts : list nat;
  connecting : list (nat * nat);
  calls : list call
}.

Definition empty_client : client := mkClient ∅ None [] [] [] [] [].

(** A handler that can throw after it has changed the state. *)
Inductive outcome :=
| Returned (c : client)
| Thrown (e : error) (c : client).

(** What [this.ongoingStreams[droneID]] yields: a [DroneStream], or some
    other value found along the prototype chain (a method, the prototype
    object, the value of a field of the stream that serves as prototype).
    No such value has a [ros2Streamer], a [peerConnection] or a
    [handleIncomingSocketMsg]. *)
Inductive found :=
| Stream (a : nat)
| NotAStream.

(** The methods a [DroneStream] inherits from its class. *)
Definition droneStreamPrototype : list string :=
  ["constructor"; "sendMessage"; "handleIncomingSocketMsg"; "startDroneStream";
   "handleOnTrack"; "initializeROS2Streaming"; "handleOnConnectionStateChange";
   "createPeerConnection"].

(** [peerConnection.close()] has been called on the stream at [a]; the
    field is [null] from then on. *)
Definition closedBefore (a : nat) (c : client) : bool :=
  existsb (fun k => match k with PcClose a' => Nat.eqb a' a | _ => false end)
    (calls c).

(** The own properties of the stream at [a]: the three fields the
    constructor always assigns, and [peerConnection] when it was assigned,
    by [createPeerConnection] or, as [null], by [closeDroneStream]. *)
Definition ownFields (a : nat) (c : client) : list string :=
  match streams c !! a with
  | Some st =>
      ["droneSocketID"; "streamObj"; "ros2Streamer"] ++
      (if bool_decide (is_Some (peerConnection st)) || closedBefore a c
       then ["peerConnection"] else [])
  | None => []
  end.

(** The names [ongoingStreams] inherits. *)
Definition chain (c : client) : list string :=
  match prototype c with
  | Some a => ownFields a c ++ droneStreamPrototype
  | None => []
  end ++ inherited.

(** [droneID in this.ongoingStreams] for a name that is not an own
    property. *)
Definition inherits (droneID : string) (c : client) : bool :=
  existsb (String.eqb droneID) (chain c).

(** [getStreamByDroneID]: an own property first; else, for ["__proto__"],
    the getter of [Object.prototype] returns the prototype; else an
    inherited value; else the name is not [in] the object. *)
Definition getStreamByDroneID (droneID : string) (c : client) : completion found :=
  match ongoingStreams c !! droneID with
  | Some a => Normal (Stream a)
  | None =>
      if String.eqb droneID "__proto__" then
        Normal (match prototype c with
                | Some a => Stream a
                | None => NotAStream
                end)
      else if inherits droneID c then Normal NotAStream
      else Throw KeyError
  end.

(** [new DroneStream(droneID, videoTagID)]: [elem] is what
    [document.getElementById(srcID)] returns, [pcCreated] whether
    [createPeerConnection] got through its [try]. *)
Definition new_DroneStream (droneID : string) (elem : option VideoElement)
    (pcCreated : bool) : DroneStream :=
  mkDroneStream droneID elem None (if pcCreated then Some new else None).

(** [createDroneStream]. The assignment [this.ongoingStreams[droneID] =
    stream] makes or overwrites an own property, except for ["__proto__"]
    when it is not an own property: then the setter of [Object.prototype]
    makes the stream the prototype of the dictionary. *)
Definition createDroneStream (droneID : string) (elem : option VideoElement)
    (pcCreated : bool) (c : client) : nat * client :=
  let stream := new_DroneStream droneID elem pcCreated in
  let a := length (streams c) in
  if String.eqb droneID "__proto__"
     && negb (bool_decide (is_Some (ongoingStreams c !! droneID)))
  then
    (a, mkClient (ongoingStreams c) (Some a) (streams c ++ [stream])
          (streamers c) (timeouts c) (connecting c) (calls c))
  else
    (a, mkClient (<[droneID := a]> (ongoingStreams c)) (prototype c)
          (streams c ++ [stream]) (streamers c) (timeouts c) (connecting c)
          (calls c)).

(** [streamer.disconnect()] on the object at address [b]. *)
Definition disconnect_at (b : nat) (c : client) : client :=
  match streamers c !! b with
  | Some s =>
      let '(s', es) := disconnect s in
      mkClient (ongoingStreams c) (prototype c) (streams c)
        (<[b := s']> (streamers c)) (timeouts c) (connecting c)
        (calls c ++ map (OnStreamer b) es)
  | None => c
  end.

(** [closeDroneStream]. On a value that is not a stream, reading
    [stream.ros2Streamer] or calling [stream.peerConnection.close()]
    throws a [TypeError]. [delete] removes an own property only. *)
Definition closeDroneStream (droneID : string) (c : client) : outcome :=
  match getStreamByDroneID droneID c with
  | Throw e => Thrown e c
  | Normal NotAStream => Thrown TypeError c
  | Normal (Stream a) =>
      match streams c !! a with
      | None => Thrown TypeError c
      | Some stream =>
          let c1 :=
            match ros2Streamer stream with
            | Some b => disconnect_at b c
            | None => c
            end in
          match peerConnection stream with
          | None => Thrown TypeError c1
          | Some _ =>
              let stream' := mkDroneStream (droneSocketID stream)
                               (streamObj stream) (ros2Streamer stream) None in
              Returned (mkClient (delete droneID (ongoingStreams c1))
                          (prototype c1) (<[a := stream']> (streams c1))
                          (streamers c1) (timeouts c1) (connecting c1)
                          (calls c1 ++ [PcClose a]))
          end
      end
  end.

(** [initializeROS2Streaming()] on the stream at address [a]: all it does
    at once is schedule the one-second timeout. *)
Definition initializeROS2Streaming (a : nat) (c : client) : client :=
  mkClient (ongoingStreams c) (prototype c) (streams c) (streamers c)
    (timeouts c ++ [a]) (connecting c) (calls c ++ [SetTimeout a]).

(** [handleOnTrack(event)] on the stream at address [a]: sets [srcObject]
    on the video element (a [TypeError] when there is none), then calls
    [initializeROS2Streaming()]. *)
Definition handleOnTrack (a : nat) (c : client) : outcome :=
  match streams c !! a with
  | None => Thrown TypeError c
  | Some stream =>
      match streamObj stream with
      | None => Thrown TypeError c
      | Some _ => Returned (initializeROS2Streaming a c)
      end
  end.

(** The callback of the oldest pending timeout of
    [initializeROS2Streaming], up to its [await]: a new streamer is built
    and stored in [ros2Streamer], and [connect()] creates its socket,
    which is connecting; the rest of the callback waits for that socket.
    [None] when no timeout is pending. *)
Definition initializeROS2Streaming_callback (c : client) : option client :=
  match timeouts c with
  | [] => None
  | a :: pending =>
      match streams c !! a with
      | None => None
      | Some stream =>
          let '(s0, e0) := new_ROS2ImageStreamer (streamObj stream) in
          let b := length (streamers c) in
          let stream' := mkDroneStream (droneSocketID stream)
                           (streamObj stream) (Some b) (peerConnection stream) in
          let s1 := set_ws (Some (mkWebSocket CONNECTING 0)) s0 in
          Some (mkClient (ongoingStreams c) (prototype c)
                  (<[a := stream']> (streams c)) (streamers c ++ [s1]) pending
                  (connecting c ++ [(a, b)])
                  (calls c ++ map (OnStreamer b) e0))
      end
  end.

(** The stream whose callback awaits the socket of the streamer at [b]. *)
Fixpoint awaiting (b : nat) (pending : list (nat * nat)) : option nat :=
  match pending with
  | [] => None
  | (a, b') :: rest => if Nat.eqb b' b then Some a else awaiting b rest
  end.

(** The socket of the streamer at [b], which is connecting, opens
    ([opened]) or fails, and the callback that awaits it goes on. When it
    opened, the callback calls [this.ros2Streamer.startStreaming(10)], on
    the streamer the field refers to at that time ([id] is the timer
    [setInterval] returns, if it comes to that; were the field [null], the
    [TypeError] would end in the [catch]). When it failed, the rejection is
    caught and the socket's [onclose] runs; this is also what happens to a
    socket that [disconnect()] closed while it was connecting. [None] when
    nothing awaits that socket, or when it is said to open though it is not
    connecting. *)
Definition connectSettled (b : nat) (opened : bool) (id : positive) (c : client)
  : option client :=
  a ← awaiting b (connecting c);
  s ← streamers c !! b;
  stream ← streams c !! a;
  let rest := List.filter (fun p => negb (Nat.eqb p.2 b)) (connecting c) in
  if opened then
    sock ← ws s;
    if negb (readyState_eqb (ws_readyState sock) CONNECTING) then None
    else
      let opened_b :=
        <[b := set_ws (Some (mkWebSocket OPEN (bufferedAmount sock))) s]>
          (streamers c) in
      match ros2Streamer stream with
      | None =>
          Some (mkClient (ongoingStreams c) (prototype c) (streams c) opened_b
                  (timeouts c) rest (calls c))
      | Some b' =>
          s' ← opened_b !! b';
          let '(s'', e) := startStreaming 10 id s' in
          Some (mkClient (ongoingStreams c) (prototype c) (streams c)
                  (<[b' := s'']> opened_b) (timeouts c) rest
                  (calls c ++ map (OnStreamer b') e))
      end
  else
    Some (mkClient (ongoingStreams c) (prototype c) (streams c)
            (<[b := onclose s]> (streamers c)) (timeouts c) rest (calls c)).

(** A streamer whose capture timer is running. *)
Definition timerRunning (s : ROS2ImageStreamer) : bool :=
  isStreaming s && bool_decide (is_Some (intervalId s)).

(** Streamers with a running timer. *)
Definition activeProducers (c : client) : list ROS2ImageStreamer :=
  List.filter timerRunning (streamers c).

(** [DroneStream] objects for [droneID] that still hold a peer connection. *)
Definition liveLinks (droneID : string) (c : client) : list DroneStream :=
  List.filter
    (fun st => String.eqb (droneSocketID st) droneID
               && bool_decide (is_Some (peerConnection st)))
    (streams c).

(** One call to ["drone1"], rendered in a playing video element. *)
Definition one_call : client :=
  (createDroneStream "drone1" (Some playing_video) true empty_client).2.

(** The peer connection of that call delivers two tracks (the stream asks
    for video and for audio); the first timeout fires and its socket opens,
    then the second timeout fires and its socket opens. *)
Definition two_tracks : option client :=
  match handleOnTrack 0 one_call with
  | Returned c2 =>
      match handleOnTrack 0 c2 with
      | Returned c3 =>
          c4 ← initializeROS2Streaming_callback c3;
          c5 ← connectSettled 0 true 1%positive c4;
          c6 ← initializeROS2Streaming_callback c5;
          connectSettled 1 true 2%positive c6
      | Thrown _ _ => None
      end
  | Thrown _ _ => None
  end.

(** The same two tracks, with both timeouts fired and neither socket open
    yet. *)
Definition both_connecting : option client :=
  match handleOnTrack 0 one_call with
  | Returned c2 =>
      match handleOnTrack 0 c2 with
      | Returned c3 =>
          c4 ← initializeROS2Streaming_callback c3;
          initializeROS2Streaming_callback c4
      | Thrown _ _ => None
      end
  | Thrown _ _ => None
  end.

(** Then the first socket opens, then the second. *)
Definition two_tracks_sockets_late : option client :=
  c5 ← both_connecting;
  c6 ← connectSettled 0 true 1%positive c5;
  connectSettled 1 true 2%positive c6.

(** A call made under the id ["__proto__"]. *)
Definition proto_call : client :=
  (createDroneStream "__proto__" (Some playing_video) true empty_client).2.

(** A second call to the same drone without a hangup in between. *)
Definition two_calls : client :=
  (createDroneStream "drone1" (Some playing_video) true one_call).2.

(** *** Signalling through the relay socket *)

(** Calls made on the peer connection of a stream. *)
Inductive pcCall :=
| SetRemoteDescription (stream : nat) (description : Relay.json)
| AddIceCandidate (stream : nat) (sdpMLineIndex : Relay.json)
    (candidate : Relay.value).

(** The manager with its static [socket] ([None] for [null], else the
    frames handed to [socket.send], as given to [JSON.stringify]) and the
    calls made on peer connections. *)
Record page := mkPage {
  manager : client;
  socket : option (list Relay.json);
  signalling : list pcCall
}.

(** [setupSocketEvent(socket, droneID)]: stores the socket; the handler it
    installs is [onmessage droneID] below. *)
Definition setupSocketEvent (pg : page) : page :=
  mkPage (manager pg) (Some (default [] (socket pg))) (signalling pg).

(** What [sendMessage] of a stream for [droneSocketID] puts on the wire. *)
Definition envelope (droneSocketID : string) (message : Relay.json) : Relay.json :=
  Relay.JObj [("event", Relay.JStr "webrtc_msg");
              ("socketID", Relay.JStr droneSocketID);
              ("data", message)].

(** [sendMessage(message)] on the stream at address [a]. *)
Definition sendMessage (a : nat) (message : Relay.json) (pg : page)
  : completion page :=
  match streams (manager pg) !! a, socket pg with
  | Some stream, Some sent =>
      Normal (mkPage (manager pg)
                (Some (sent ++ [envelope (droneSocketID stream) message]))
                (signalling pg))
  | _, _ => Throw TypeError
  end.

(** [handleIncomingSocketMsg(message)] on the stream at address [a]. The
    [RTCIceCandidate] constructor throws a [TypeError] when it is given
    neither [sdpMid] nor [sdpMLineIndex], which here is when
    [message.label] is missing or [null]. *)
Definition handleIncomingSocketMsg (a : nat) (message : Relay.value) (pg : page)
  : completion page :=
  type ← Relay.getProp message "type";
  match streams (manager pg) !! a with
  | None => Throw TypeError
  | Some stream =>
      if Relay.is_string type "answer" then
        match peerConnection stream, message with
        | Some _, Some description =>
            Normal (mkPage (manager pg) (socket pg)
                      (signalling pg ++ [SetRemoteDescription a description]))
        | _, _ => Throw TypeError
        end
      else if Relay.is_string type "candidate" then
        label ← Relay.getProp message "label";
        candidate ← Relay.getProp message "candidate";
        match label, peerConnection stream with
        | Some Relay.JNull, _ | None, _ | _, None => Throw TypeError
        | Some index, Some _ =>
            Normal (mkPage (manager pg) (socket pg)
                      (signalling pg ++ [AddIceCandidate a index candidate]))
        end
      else Normal pg
  end.

(** The [onmessage] handler installed by [setupSocketEvent(socket,
    droneID)], entered with the result of [JSON.parse(message.data)]. A
    value that is not a stream has no [handleIncomingSocketMsg] to call. *)
Definition onmessage (droneID : string) (data : Relay.json) (pg : page)
  : completion page :=
  event ← Relay.getProp (Some data) "event";
  if Relay.is_string event "webrtc_msg" then
    droneStream ← getStreamByDroneID droneID (manager pg);
    payload ← Relay.getProp (Some data) "data";
    match droneStream with
    | Stream a => handleIncomingSocketMsg a payload pg
    | NotAStream => Throw TypeError
    end
  else Normal pg.

(** [startDroneStream()] on the stream at address [a]. [offer] is the
    local description once [createOffer] and [setLocalDescription] have
    resolved, [None] when one of them rejects; a rejection, and a throw of
    [sendMessage], end in the [catch] of the promise chain. *)
Definition startDroneStream (a : nat) (offer : option Relay.json) (pg : page)
  : completion page :=
  match streams (manager pg) !! a with
  | None => Throw TypeError
  | Some stream =>
      match peerConnection stream with
      | None => Throw TypeError
      | Some _ =>
          match offer with
          | None => Normal pg
          | Some description =>
              match sendMessage a description pg with
              | Normal pg' => Normal pg'
              | Throw _ => Normal pg
              end
          end
      end
  end.

(** The page after [setupSocketEvent] and one call to ["drone1"]. *)
Definition calling_drone1 : page := mkPage one_call (Some []) [].

End Manager.

(** * The frame consumer (node side) *)

Module Publisher.

(** The [data] of a received [image_frame] message, as far as the
    publisher reads it. [imageData] is [None] when [Buffer.from] rejects
    what the message carries there. *)
Record FrameData := mkFrameData {
  imageData : option string;
  width : Z;
  height : Z;
  captureTime : option Z;
  timestamp : option Z
}.

(** [sensor_msgs/msg/CompressedImage] *)
Record CompressedImage := mkCompressedImage {
  stamp_sec : Z;
  stamp_nanosec : Z;
  frame_id : string;
  format : string;
  data : list Z
}.

(** [publisher] is [None] for [null], else the messages the ROS2
    publisher has accepted so far. *)
Record ROS2ImagePublisherCompressed := mkPublisher {
  isInitialized : bool;
  publisher : option (list CompressedImage);
  isProcessing : bool;
  frameDropCount : Z;
  lastProcessTime : Z;
  lastPublishTime : Z;
  minPublishInterval : Q
}.

(** [new ROS2ImagePublisherCompressed()] *)
Definition new_publisher : ROS2ImagePublisherCompressed :=
  mkPublisher false None false 0 0 0 100.

Definition set_publisher l (p : ROS2ImagePublisherCompressed) :=
  mkPublisher (isInitialized p) l (isProcessing p) (frameDropCount p)
    (lastProcessTime p) (lastPublishTime p) (minPublishInterval p).

Definition set_isProcessing b (p : ROS2ImagePublisherCompressed) :=
  mkPublisher (isInitialized p) (publisher p) b (frameDropCount p)
    (lastProcessTime p) (lastPublishTime p) (minPublishInterval p).

Definition set_frameDropCount n (p : ROS2ImagePublisherCompressed) :=
  mkPublisher (isInitialized p) (publisher p) (isProcessing p) n
    (lastProcessTime p) (lastPublishTime p) (minPublishInterval p).

Definition set_lastProcessTime t (p : ROS2ImagePublisherCompressed) :=
  mkPublisher (isInitialized p) (publisher p) (isProcessing p) (frameDropCount p)
    t (lastPublishTime p) (minPublishInterval p).

Definition set_lastPublishTime t (p : ROS2ImagePublisherCompressed) :=
  mkPublisher (isInitialized p) (publisher p) (isProcessing p) (frameDropCount p)
    (lastProcessTime p) t (minPublishInterval p).

Definition drop (p : ROS2ImagePublisherCompressed) :=
  set_frameDropCount (frameDropCount p + 1) p.

Section Consumer.

(** [Array.from(Buffer.from(s, 'base64'))] *)
Variable base64 : string -> list Z.

(** The record built from a frame received at [now]. *)
Definition compressedImageMsg (now : Z) (b64 : string) : CompressedImage :=
  mkCompressedImage (now / 1000) (Z.rem now 1000 * 1000000)
    "camera_frame" "jpeg" (base64 b64).

(** The [try] block. [accepted] tells whether [publisher.publish] returns
    or throws, [elapsed] is [Date.now() - startTime] after it returned.
    What was assigned before a throw stays assigned. *)
Definition tryBlock (frameData : option FrameData) (now elapsed : Z)
    (accepted : bool) (p : ROS2ImagePublisherCompressed)
  : ROS2ImagePublisherCompressed * completion unit :=
  match frameData with
  | None => (p, Throw TypeError)
  | Some fd =>
      match imageData fd with
      | None => (p, Throw TypeError)
      | Some b64 =>
          if accepted then
            let log := option_map (fun l => l ++ [compressedImageMsg now b64])
                         (publisher p) in
            (set_lastProcessTime elapsed (set_publisher log p), Normal tt)
          else (p, Throw PublishError)
      end
  end.

(** [publishCompressedImageFrame(frameData)]; the function has no
    [await], so a call runs to its end before the next one starts. *)
Definition publishCompressedImageFrame (frameData : option FrameData)
    (now elapsed : Z) (accepted : bool) (p : ROS2ImagePublisherCompressed)
  : ROS2ImagePublisherCompressed * completion unit :=
  if negb (isInitialized p) || negb (bool_decide (is_Some (publisher p)))
  then (p, Normal tt)
  else if Qltb (inject_Z (now - lastPublishTime p)) (minPublishInterval p)
  then (drop p, Normal tt)
  else if isProcessing p then (drop p, Normal tt)
  else
    let p1 := set_lastPublishTime now (set_isProcessing true p) in
    let '(p2, r) := tryBlock frameData now elapsed accepted p1 in
    let caught := match r with Throw _ => Normal tt | Normal u => Normal u end in
    (set_isProcessing false p2, caught).

(** One frame arriving on the side channel, with the answers of the
    environment while it is handled. *)
Record arrival := mkArrival {
  frame : option FrameData;
  at_ms : Z;
  took_ms : Z;
  sinkAccepts : bool
}.

Definition receive (p : ROS2ImagePublisherCompressed) (a : arrival)
  : ROS2ImagePublisherCompressed :=
  fst (publishCompressedImageFrame (frame a) (at_ms a) (took_ms a) (sinkAccepts a) p).

Definition receiveAll (arrivals : list arrival) (p : ROS2ImagePublisherCompressed)
  : ROS2ImagePublisherCompressed :=
  fold_left receive arrivals p.

(** Messages the sink has accepted. *)
Definition published (p : ROS2ImagePublisherCompressed) : list CompressedImage :=
  default [] (publisher p).

End Consumer.

(** A publisher after [initialize()], nothing published yet. *)
Definition ready_publisher : ROS2ImagePublisherCompressed :=
  mkPublisher true (Some []) false 0 0 0 100.

Definition good_frame : FrameData :=
  mkFrameData (Some "/9j/4AAQ") 320 240 (Some 990) (Some 990).

(** A frame without [imageData]. *)
Definition bad_frame : FrameData := mkFrameData None 320 240 None None.

Definition base64_stub : string -> list Z := fun _ => [255; 216; 255; 224].

(** Five frames in 50 ms, the first at 1000 ms. *)
Definition burst : list arrival :=
  [mkArrival (Some good_frame) 1000 1 true;
   mkArrival (Some good_frame) 1010 1 true;
   mkArrival (Some good_frame) 1020 1 true;
   mkArrival (Some good_frame) 1035 1 true;
   mkArrival (Some good_frame) 1050 1 true].

(** *** The rest of the publisher's interface *)

Definition set_minPublishInterval q (p : ROS2ImagePublisherCompressed) :=
  mkPublisher (isInitialized p) (publisher p) (isProcessing p) (frameDropCount p)
    (lastProcessTime p) (lastPublishTime p) q.

Definition resetStats (p : ROS2ImagePublisherCompressed) :=
  set_lastPublishTime 0 (set_lastProcessTime 0 (set_frameDropCount 0 p)).

(** [Math.max(a, b)] *)
Definition Math_max (a b : Q) : Q := if Qle_bool a b then b else a.

(** [Math.round(x)]: the nearest integer, halves going up. *)
Definition Math_round (x : Q) : Z := Qfloor (x + (1 # 2)).

(** [setPublishRate(fps)]; [1000 / 0] is [Infinity], which the record
    cannot hold: [None]. Doubles are read as exact rationals. *)
Definition setPublishRate (fps : Z) (p : ROS2ImagePublisherCompressed)
  : option ROS2ImagePublisherCompressed :=
  if fps =? 0 then None
  else Some (set_minPublishInterval (Math_max 33 (1000 / inject_Z fps)) p).

Record Stats := mkStats {
  stats_frameDropCount : Z;
  stats_lastProcessTime : Z;
  stats_isProcessing : bool;
  stats_publishRate : Z;
  stats_minPublishInterval : Q
}.

(** [getStats()], for an interval that is not zero. *)
Definition getStats (p : ROS2ImagePublisherCompressed) : Stats :=
  mkStats (frameDropCount p) (lastProcessTime p) (isProcessing p)
    (Math_round (1000 / minPublishInterval p)) (minPublishInterval p).

(** The time a published record is stamped with, in milliseconds. *)
Definition stamp_ms (m : CompressedImage) : Z :=
  stamp_sec m * 1000 + stamp_nanosec m / 1000000.

(** Each time is at least [gap] after the one before it, the first after
    [last]. *)
Fixpoint spaced (gap : Q) (last : Z) (times : list Z) : Prop :=
  match times with
  | [] => True
  | t :: rest => (gap <= inject_Z (t - last))%Q ∧ spaced gap t rest
  end.

(** A frame sent by the producer as the consumer's handler finds it in
    [message.data] after [JSON.stringify] and [JSON.parse]. *)
Definition on_wire (f : Streamer.ImageFrame) : FrameData :=
  mkFrameData (Some (Streamer.imageData f)) (Streamer.width f) (Streamer.height f)
    (Some (Streamer.captureTime f)) (Some (Streamer.timestamp f)).

End Publisher.

(** * Comparisons on rationals *)

Lemma Qltb_lt (x y : Q) : Qltb x y = true ↔ (x < y)%Q.
Proof.
  unfold Qltb. rewrite negb_true_iff. split.
  - intros H. apply Qnot_le_lt. intros Hle.
    apply Qle_bool_iff in Hle. congruence.
  - intros H. destruct (Qle_bool y x) eqn:E; [|done].
    apply Qle_bool_iff in E. by apply Qlt_not_le in H.
Qed.

Lemma Qltb_inject_Z (a b : Z) : Qltb (inject_Z a) (inject_Z b) = (a <? b).
Proof.
  unfold Qltb, Qle_bool, inject_Z. simpl. rewrite !Z.mul_1_r.
  destruct (Z.leb_spec b a); destruct (Z.ltb_spec a b); simpl; try done; lia.
Qed.

(** * Properties of the relay *)

Module RelayFacts.
Import Relay.

Lemma obj_get_set_eq k v fields : obj_get k (obj_set k v fields) = Some v.
Proof.
  induction fields as [|[k' v'] rest IH]; simpl.
  - by rewrite String.eqb_refl.
  - destruct (String.eqb k k') eqn:E; simpl; rewrite E; [done | exact IH].
Qed.

Lemma obj_get_set_ne k k' v fields :
  k ≠ k' → obj_get k' (obj_set k v fields) = obj_get k' fields.
Proof.
  intros Hne. induction fields as [|[k0 v0] rest IH]; simpl.
  - destruct (String.eqb k' k) eqn:E; [|done].
    apply String.eqb_eq in E. congruence.
  - destruct (String.eqb k k0) eqn:E; simpl.
    + apply String.eqb_eq in E. subst k0.
      destruct (String.eqb k' k) eqn:E'; [|done].
      apply String.eqb_eq in E'. congruence.
    + by rewrite IH.
Qed.

(** The root [socketID] and the payload's own [socketID] are the only
    places the target is read from; with an object payload neither read
    throws. *)
Lemma requestedSocketID_object m fields :
  getProp (Some m) "data" = Normal (Some (JObj fields)) →
  ∃ t, requestedSocketID m = Normal t.
Proof.
  intros Hd. unfold requestedSocketID. rewrite Hd. simpl.
  destruct m; simpl in *; try discriminate.
  destruct (truthy _); eauto.
Qed.

(** C1 (as amended): for every ['webrtc_msg'] envelope whose payload [data]
    is a JSON object and whose requested target id is in the registry, the
    relay hands the target connection exactly one frame, carrying the
    payload with [data.socketID] set to the id that [findClientID] finds for
    the sending connection, whatever [socketID] the sender had put in the
    payload; every other field of the payload is passed on as it came, and
    the registry is left as it was. *)
Theorem onMessage_forwards_resolved_sender
    (sock : socket) (m : json) (r : relay) (fields : list (string * json))
    (t : value) (target : socket) :
  getProp (Some m) "event" = Normal (Some (JStr "webrtc_msg")) →
  getProp (Some m) "data" = Normal (Some (JObj fields)) →
  requestedSocketID m = Normal t →
  Map_get t (clients r) = Some target →
  let sender := id_value (findClientID (clients r) sock) in
  let data' := JObj (obj_set "socketID" sender fields) in
  forwarded_with_sender sock m r ∧
  onMessage sock m r
    = Normal (mkRelay (clients r)
                (outbox r ++ [(target, JObj [("event", JStr "webrtc_msg");
                                             ("data", data')])])) ∧
  obj_get "socketID" (obj_set "socketID" sender fields) = Some sender ∧
  ∀ k, k ≠ "socketID" →
       obj_get k (obj_set "socketID" sender fields) = obj_get k fields.
Proof.
  intros Hev Hdata Ht Htarget sender data'.
  assert (Hrun : onMessage sock m r
                 = Normal (send target "webrtc_msg" (Some data') r)).
  { unfold onMessage. rewrite Hev, Hdata. simpl. rewrite Ht. simpl.
    by rewrite Htarget. }
  split; [|split; [|split]].
  - exists t, target, data'. repeat split; try done.
    simpl. by rewrite obj_get_set_eq.
  - exact Hrun.
  - apply obj_get_set_eq.
  - intros k Hk. apply obj_get_set_ne. congruence.
Qed.

(** The offer of [a1] to [b2] arrives with [socketID] rewritten from
    ["forged"] to ["a1"]. *)
Lemma onMessage_forwards_resolved_sender_witness :
  forwarded_with_sender 1%nat offer_to_b2 two_clients ∧
  onMessage 1%nat offer_to_b2 two_clients
    = Normal (mkRelay (clients two_clients)
        [(2%nat, JObj [("event", JStr "webrtc_msg");
                       ("data", JObj [("type", JStr "offer"); ("sdp", JStr "v=0");
                                      ("socketID", JStr "a1")])])]).
Proof.
  pose proof (onMessage_forwards_resolved_sender 1%nat offer_to_b2 two_clients
    [("type", JStr "offer"); ("sdp", JStr "v=0"); ("socketID", JStr "forged")]
    (Some (JStr "b2")) 2%nat eq_refl eq_refl eq_refl eq_refl) as H.
  split; [exact (proj1 H) | exact (proj1 (proj2 H))].
Defined.

(** C1 (as stated) fails: a ['webrtc_msg'] envelope whose payload is the
    JSON string ["hello"], addressed to the registered id ["b2"], is handed
    to that connection as it came, without any sender id. *)
Lemma string_payload_forwarded_without_sender :
  getProp (Some string_payload) "event" = Normal (Some (JStr "webrtc_msg")) ∧
  Map_get (Some (JStr "b2")) (clients two_clients) = Some 2%nat ∧
  onMessage 1%nat string_payload two_clients
    = Normal (mkRelay (clients two_clients)
        [(2%nat, JObj [("event", JStr "webrtc_msg"); ("data", JStr "hello")])]) ∧
  ¬ forwarded_with_sender 1%nat string_payload two_clients.
Proof.
  repeat split.
  intros (t & target & data' & _ & _ & Hrun & Hid).
  vm_compute in Hrun. injection Hrun as <- <-.
  vm_compute in Hid. discriminate.
Qed.

(** C7 (as amended): for every inbound envelope whose payload [data] is
    present and not [null] and whose requested target id is not in the
    registry, the handler returns normally and leaves the relay as it was:
    nothing is handed to any connection and the registry is unchanged. *)
Theorem onMessage_unknown_target_dropped
    (sock : socket) (m : json) (r : relay) (d : json) (t : value) :
  getProp (Some m) "data" = Normal (Some d) →
  d ≠ JNull →
  requestedSocketID m = Normal t →
  Map_get t (clients r) = None →
  onMessage sock m r = Normal r.
Proof.
  intros Hdata Hd Ht Habsent.
  destruct m; simpl in Hdata; try discriminate.
  unfold onMessage. simpl. injection Hdata as Hdata. rewrite Hdata. simpl.
  rewrite Ht. simpl. destruct (is_string _ _); [|done].
  rewrite Habsent. destruct d; simpl; congruence.
Qed.

(** An offer to an id nobody holds leaves the relay untouched. *)
Lemma onMessage_unknown_target_dropped_witness :
  onMessage 1%nat offer_to_nobody two_clients = Normal two_clients.
Proof.
  apply (onMessage_unknown_target_dropped 1%nat offer_to_nobody two_clients
           (JObj [("type", JStr "offer")]) (Some (JStr "zz")));
    [reflexivity | discriminate | reflexivity | reflexivity].
Defined.

(** C7 (as stated) fails: an envelope addressed to the unknown id ["zz"]
    whose payload is [null] makes the handler throw a [TypeError]. *)
Lemma null_payload_throws :
  requestedSocketID null_payload = Normal (Some (JStr "zz")) ∧
  Map_get (Some (JStr "zz")) (clients two_clients) = None ∧
  onMessage 1%nat null_payload two_clients = Throw TypeError.
Proof. repeat split. Qed.

(** *** The registry as a list of entries *)


Lemma findClientID_None (m : registry) s : findClientID m s = None ↔ s ∉ m.*2.
Proof.
  induction m as [|[k v] rest IH]; simpl.
  - split; [intros _; apply not_elem_of_nil | done].
  - destruct (Nat.eqb v s) eqn:E.
    + apply Nat.eqb_eq in E. subst v. split; [done|].
      intros H. destruct H. apply elem_of_cons. by left.
    + apply Nat.eqb_neq in E. rewrite IH, not_elem_of_cons.
      split; [intros H; split; [congruence | done] | tauto].
Qed.

Lemma findClientID_Some (m : registry) s k :
  findClientID m s = Some k → (k, s) ∈ m.
Proof.
  induction m as [|[k' v] rest IH]; simpl; [done|].
  destruct (Nat.eqb v s) eqn:E.
  - apply Nat.eqb_eq in E. intros [= ->]. subst. apply elem_of_cons. by left.
  - intros H. apply elem_of_cons. right. by apply IH.
Qed.

Lemma Map_set_fresh k v (m : registry) :
  Map_get_str k m = None → Map_set k v m = m ++ [(k, v)].
Proof.
  induction m as [|[k' v'] rest IH]; simpl; [done|].
  destruct (String.eqb k k'); [done|]. intros H. by rewrite IH.
Qed.

Lemma entry_lookup (m : registry) k v :
  NoDup m.*1 → (k, v) ∈ m → Map_get_str k m = Some v.
Proof.
  induction m as [|[k' v'] rest IH]; simpl.
  - intros _ H. by apply elem_of_nil in H.
  - rewrite NoDup_cons. intros [Hk Hnd] Hin.
    apply elem_of_cons in Hin as [[= -> ->] | Hin].
    + by rewrite String.eqb_refl.
    + destruct (String.eqb k k') eqn:E; [|by apply IH].
      apply String.eqb_eq in E. subst k'. destruct Hk.
      apply list_elem_of_fmap. by exists (k, v).
Qed.


Lemma others_all (m : registry) s : s ∉ m.*2 → List.filter (others s) m = m.
Proof.
  induction m as [|[k v] rest IH]; simpl; [done|].
  rewrite not_elem_of_cons. intros [Hne Hrest]. unfold others at 1. simpl.
  destruct (Nat.eqb v s) eqn:E; simpl.
  - apply Nat.eqb_eq in E. congruence.
  - by rewrite IH.
Qed.

Lemma filter_elem_of {A} (P : A → bool) (l : list A) x :
  x ∈ List.filter P l → x ∈ l.
Proof.
  induction l as [|y l IH]; simpl; [done|].
  destruct (P y); rewrite ?elem_of_cons; [intros [->|H]; [by left | right; auto] | right; auto].
Qed.

Lemma filter_NoDup_fmap {A B} (f : A → B) (P : A → bool) (l : list A) :
  NoDup (f <$> l) → NoDup (f <$> List.filter P l).
Proof.
  induction l as [|y l IH]; simpl; [done|].
  rewrite NoDup_cons. intros [Hy Hnd]. destruct (P y); [|by apply IH].
  simpl. apply NoDup_cons. split; [|by apply IH].
  intros Hin. apply Hy. apply list_elem_of_fmap in Hin as (x & -> & Hx).
  apply list_elem_of_fmap. exists x. split; [done|]. by eapply filter_elem_of.
Qed.

(** [clearClient] removes exactly the entries of the connection. *)
Lemma Map_delete_findClientID (m : registry) s :
  NoDup m.*1 → NoDup m.*2 →
  Map_delete (findClientID m s) m = List.filter (others s) m.
Proof.
  induction m as [|[k v] rest IH]; simpl; [done|].
  rewrite !NoDup_cons. intros [Hk Hks] [Hv Hvs].
  unfold others at 1. simpl. destruct (Nat.eqb v s) eqn:E; simpl.
  - apply Nat.eqb_eq in E. subst v. rewrite String.eqb_refl.
    symmetry. by apply others_all.
  - specialize (IH Hks Hvs). destruct (findClientID rest s) as [k0|] eqn:F; simpl.
    + destruct (String.eqb k0 k) eqn:E'.
      * apply String.eqb_eq in E'. subst k0. destruct Hk.
        apply findClientID_Some in F. apply list_elem_of_fmap. by exists (k, s).
      * simpl in IH. by rewrite IH.
    + simpl in IH. by rewrite <- IH.
Qed.





(** C3 fails on the code, whose own comment promises a unique id: two
    connections for which [Math.random] yields the same string are given
    the same id; both are open, the second registration has taken over the
    entry, and the first connection is no longer found in the registry. *)
Lemma colliding_draws_share_id :
  (connection 1%nat "k3j9x" (mkRelay [] [])).1
    = (connection 2%nat "k3j9x" (connection 1%nat "k3j9x" (mkRelay [] [])).2).1 ∧
  ("k3j9x", 1%nat) ∈ (run colliding start).2 ∧
  ("k3j9x", 2%nat) ∈ (run colliding start).2 ∧
  clients (run colliding start).1 = [("k3j9x", 2%nat)] ∧
  findClientID (clients (run colliding start).1) 1%nat = None.
Proof.
  repeat split; vm_compute; try reflexivity.
  - apply elem_of_cons. by left.
  - apply elem_of_cons. right. apply elem_of_cons. by left.
Qed.

(** *** More on the handlers of the relay *)

Lemma Map_get_str_In k s (m : registry) : Map_get_str k m = Some s → (k, s) ∈ m.
Proof.
  induction m as [|[k' v] rest IH]; simpl; [done|].
  destruct (String.eqb k k') eqn:E.
  - apply String.eqb_eq in E. intros [= ->]. subst. apply elem_of_cons. by left.
  - intros H. apply elem_of_cons. right. by apply IH.
Qed.

Lemma Map_get_set_eq k v (m : registry) : Map_get_str k (Map_set k v m) = Some v.
Proof.
  induction m as [|[k' v'] rest IH]; simpl.
  - by rewrite String.eqb_refl.
  - destruct (String.eqb k k') eqn:E; simpl; by rewrite E.
Qed.

Lemma Map_get_set_ne k k' v (m : registry) :
  k ≠ k' → Map_get_str k' (Map_set k v m) = Map_get_str k' m.
Proof.
  intros Hne. induction m as [|[k0 v0] rest IH]; simpl.
  - destruct (String.eqb k' k) eqn:E; [|done].
    apply String.eqb_eq in E. congruence.
  - destruct (String.eqb k k0) eqn:E; simpl.
    + apply String.eqb_eq in E. subst k0.
      destruct (String.eqb k' k) eqn:E'; [|done].
      apply String.eqb_eq in E'. congruence.
    + by rewrite IH.
Qed.

Lemma filter_elem_of_iff {A} (P : A → bool) (l : list A) x :
  x ∈ List.filter P l ↔ x ∈ l ∧ P x = true.
Proof.
  induction l as [|y l IH]; simpl.
  - split; [intros H; by apply elem_of_nil in H | intros [H _]; by apply elem_of_nil in H].
  - destruct (P y) eqn:E; rewrite ?elem_of_cons, IH.
    + split; [intros [->|[? ?]]; tauto | intros [[->|?] ?]; tauto].
    + split; [tauto | intros [[->|?] ?]; [congruence | tauto]].
Qed.

(** X1: a message never changes the registry, and a handler that returns
    has handed over at most one frame, to the connection registered under
    the requested id and to no other. *)
Theorem onMessage_routes_only_to_target
    (sock : socket) (m : json) (r r' : relay) :
  onMessage sock m r = Normal r' →
  clients r' = clients r ∧
  (outbox r' = outbox r ∨
   ∃ (t : value) (target : socket) (frame : json),
     requestedSocketID m = Normal t ∧
     Map_get t (clients r) = Some target ∧
     outbox r' = outbox r ++ [(target, frame)]).
Proof.
  unfold onMessage, mbind, completion_bind.
  destruct (getProp (Some m) "event") as [type|e]; [|done].
  destruct (getProp (Some m) "data") as [data|e]; [|done].
  destruct (requestedSocketID m) as [t|e]; [|done].
  destruct (is_string type "webrtc_msg"); [|intros [= <-]; split; [done | by left]].
  destruct (setProp data "socketID" _) as [data'|e]; [|done].
  destruct (Map_get t (clients r)) as [target|] eqn:Ht.
  - intros [= <-]. split; [done|]. right. unfold send. simpl.
    destruct data'; eexists t, target, _;
      (split; [reflexivity|]); (split; [exact Ht | reflexivity]).
  - intros [= <-]. split; [done | by left].
Qed.

Lemma onMessage_routes_only_to_target_witness :
  clients (mkRelay (clients two_clients)
             [(2%nat, JObj [("event", JStr "webrtc_msg"); ("data", JStr "hello")])])
    = clients two_clients.
Proof.
  refine (proj1 (onMessage_routes_only_to_target 1%nat string_payload two_clients _ _)).
  reflexivity.
Defined.

(** X2: the handler throws exactly on a message that is not a JSON object,
    and on an object whose [data] is missing or [null] when either the root
    [socketID] is not truthy or the event is ['webrtc_msg']; what it throws
    is always a [TypeError]. *)
Theorem onMessage_throws_iff (sock : socket) (m : json) (r : relay) :
  (∀ e, onMessage sock m r = Throw e → e = TypeError) ∧
  (onMessage sock m r = Throw TypeError ↔
   match m with
   | JObj fields =>
       nullish (obj_get "data" fields) = true ∧
       (truthy (obj_get "socketID" fields) = false ∨
        is_string (obj_get "event" fields) "webrtc_msg" = true)
   | _ => True
   end).
Proof.
  unfold onMessage, requestedSocketID.
  destruct m as [|b|q|s|items|fields]; simpl; try (split; [by intros e [= <-] | done]).
  destruct (truthy (obj_get "socketID" fields)) eqn:Hroot; simpl.
  - destruct (is_string (obj_get "event" fields) "webrtc_msg"); simpl.
    + destruct (obj_get "data" fields) as [[| | | | |]|]; simpl;
        try destruct (Map_get _ _); simpl;
        (split; [intros e; try done; by intros [= <-] | ]);
        split; try done; try (intros [? _]; done); try (intros _; split; [done | by right]).
    + split; [done|]. split; [done|]. intros [_ [?|?]]; done.
  - destruct (obj_get "data" fields) as [[| | | | |]|]; simpl;
      try destruct (is_string _ _); simpl; try destruct (Map_get _ _); simpl;
      (split; [intros e; try done; by intros [= <-] | ]);
      split; try done; try (intros [? _]; done); try (intros _; split; [done | by left]).
Qed.

(** X3: once a connection is registered under an id, that id resolves to
    it, whatever the registry held before; every other id resolves as it
    did. *)
Theorem connection_registers (sock : socket) (rnd : string) (r : relay) :
  (connection sock rnd r).1 = rnd ∧
  Map_get (Some (JStr rnd)) (clients (connection sock rnd r).2) = Some sock ∧
  (∀ k, k ≠ rnd →
        Map_get (Some (JStr k)) (clients (connection sock rnd r).2)
          = Map_get (Some (JStr k)) (clients r)) ∧
  outbox (connection sock rnd r).2 = outbox r.
Proof.
  simpl. repeat split.
  - apply Map_get_set_eq.
  - intros k Hk. apply Map_get_set_ne. congruence.
Qed.

Lemma findClientID_app_fresh (m : registry) k sock :
  findClientID m sock = None → findClientID (m ++ [(k, sock)]) sock = Some k.
Proof.
  induction m as [|[k' v] rest IH]; simpl.
  - intros _. by rewrite Nat.eqb_refl.
  - destruct (Nat.eqb v sock); [done | exact IH].
Qed.

Lemma Map_delete_str_app_fresh (m : registry) k v :
  Map_get_str k m = None → Map_delete_str k (m ++ [(k, v)]) = m.
Proof.
  induction m as [|[k' v'] rest IH]; simpl.
  - intros _. by rewrite String.eqb_refl.
  - destruct (String.eqb k k'); [done|]. intros H. by rewrite IH.
Qed.

(** X4: registering a new connection under an id the registry does not
    hold and closing it again gives back the relay exactly as it was. *)
Theorem connect_then_close_restores (sock : socket) (rnd : string) (r : relay) :
  Map_get_str rnd (clients r) = None →
  findClientID (clients r) sock = None →
  onClose sock (connection sock rnd r).2 = Normal r.
Proof.
  intros Hid Hsock. destruct r as [m out]. simpl in *.
  unfold onClose, clearClient. simpl. rewrite (Map_set_fresh _ _ _ Hid).
  rewrite (findClientID_app_fresh _ rnd _ Hsock). simpl.
  by rewrite (Map_delete_str_app_fresh _ _ _ Hid).
Qed.

Lemma connect_then_close_restores_witness :
  onClose 3%nat (connection 3%nat "c3" two_clients).2 = Normal two_clients.
Proof.
  apply connect_then_close_restores; reflexivity.
Defined.

(** X5: when the id drawn for a new connection is already held by another
    connection, the new connection takes the entry over: the id now
    resolves to the new connection, and the earlier one, if it was
    registered only once, is no longer found by [findClientID], so whatever
    it sends is forwarded with a [null] sender id. *)
Theorem colliding_id_evicts
    (sock old : socket) (rnd : string) (r : relay) :
  NoDup (clients r).*2 →
  Map_get_str rnd (clients r) = Some old →
  old ≠ sock →
  Map_get (Some (JStr rnd)) (clients (connection sock rnd r).2) = Some sock ∧
  findClientID (clients (connection sock rnd r).2) old = None ∧
  id_value (findClientID (clients (connection sock rnd r).2) old) = JNull.
Proof.
  intros Hnd Hold Hne. simpl.
  assert (H : findClientID (Map_set rnd sock (clients r)) old = None).
  { destruct r as [m out]. simpl in *. clear out.
    induction m as [|[k v] rest IH]; simpl in *; [done|].
    apply NoDup_cons in Hnd as [Hv Hnd].
    destruct (String.eqb rnd k) eqn:Ek; simpl.
    - injection Hold as ->. destruct (Nat.eqb sock old) eqn:E.
      + apply Nat.eqb_eq in E. congruence.
      + by apply findClientID_None.
    - destruct (Nat.eqb v old) eqn:Ev.
      + apply Nat.eqb_eq in Ev. subst v. destruct Hv.
        apply Map_get_str_In in Hold. apply list_elem_of_fmap. by exists (rnd, old).
      + by apply IH. }
  split; [apply Map_get_set_eq|]. split; [done|]. by rewrite H.
Qed.

Lemma colliding_id_evicts_witness :
  Map_get (Some (JStr "a1")) (clients (connection 9%nat "a1" two_clients).2)
    = Some 9%nat ∧
  findClientID (clients (connection 9%nat "a1" two_clients).2) 1%nat = None.
Proof.
  assert (Hnd : NoDup (clients two_clients).*2).
  { simpl. apply NoDup_cons. split.
    - intros H. apply list_elem_of_singleton in H. discriminate.
    - apply NoDup_singleton. }
  pose proof (colliding_id_evicts 9%nat 1%nat "a1" two_clients Hnd eq_refl
                ltac:(discriminate)) as (H1 & H2 & _).
  by split.
Defined.

(** X6: in a registry that holds no id and no connection twice, closing a
    connection removes its entry and nothing else: an id resolves after the
    close exactly when it resolved before to another connection. *)
Theorem clearClient_removes_only_its_entry
    (sock : socket) (r r' : relay) :
  NoDup (clients r).*1 →
  NoDup (clients r).*2 →
  clearClient sock r = Normal r' →
  findClientID (clients r') sock = None ∧
  outbox r' = outbox r ∧
  ∀ k s, Map_get_str k (clients r') = Some s ↔
         Map_get_str k (clients r) = Some s ∧ s ≠ sock.
Proof.
  intros Hk Hv. unfold clearClient. intros [= <-]. simpl.
  rewrite (Map_delete_findClientID _ _ Hk Hv).
  assert (Hk' : NoDup (List.filter (others sock) (clients r)).*1)
    by by apply filter_NoDup_fmap.
  split; [|split; [done|]].
  - apply findClientID_None. intros Hin.
    apply list_elem_of_fmap in Hin as ([k s] & -> & Hin).
    apply filter_elem_of_iff in Hin as [_ Hne]. unfold others in Hne. simpl in Hne.
    by rewrite Nat.eqb_refl in Hne.
  - intros k s. split.
    + intros H. apply Map_get_str_In in H.
      apply filter_elem_of_iff in H as [Hin Hne]. split; [by apply entry_lookup|].
      unfold others in Hne. simpl in Hne. apply negb_true_iff, Nat.eqb_neq in Hne. done.
    + intros [H Hne]. apply entry_lookup; [done|].
      apply filter_elem_of_iff. split; [by apply Map_get_str_In|].
      unfold others. simpl. by apply negb_true_iff, Nat.eqb_neq.
Qed.

Lemma clearClient_removes_only_its_entry_witness :
  findClientID (clients (mkRelay [("b2", 2%nat)] [])) 1%nat = None.
Proof.
  refine (proj1 (clearClient_removes_only_its_entry 1%nat two_clients
                   (mkRelay [("b2", 2%nat)] []) _ _ eq_refl)).
  - simpl. apply NoDup_cons. split.
    + intros H. apply list_elem_of_singleton in H. discriminate.
    + apply NoDup_singleton.
  - simpl. apply NoDup_cons. split.
    + intros H. apply list_elem_of_singleton in H. discriminate.
    + apply NoDup_singleton.
Defined.

End RelayFacts.

(** * Properties of the frame producer *)

Module StreamerFacts.
Import Streamer.

(** For a positive rate the pacing test is the integer test
    [elapsed * rate < 800]. *)
Lemma tooSoon_integer (elapsed rate : Z) :
  0 < rate → tooSoon elapsed rate = (elapsed * rate <? 800).
Proof.
  intros Hpos. unfold tooSoon. destruct rate as [|p|p]; try lia. simpl.
  unfold Qltb, Qle_bool, expectedInterval, Qdiv, Qmult, Qinv, inject_Z. simpl.
  match goal with
  | |- negb (?a <=? ?b) = _ => destruct (Z.leb_spec a b)
  end; destruct (Z.ltb_spec (elapsed * Z.pos p) 800); simpl; try done; lia.
Qed.

Section Tick.

Variable toDataURL : VideoElement -> Z -> Z -> Q -> option string.


(** C10: on a tick that gets past the congestion and pacing checks with a
    ready video of nonzero size, while the socket is not [OPEN], the frame
    is lost without a trace: [lastFrameTime] becomes [now], nothing is
    sent, [frameDropCount] stays as it was. *)
Theorem frame_lost_when_socket_not_open
    (now : Z) (s : ROS2ImageStreamer) (video : VideoElement) (sock : WebSocket) :
  isStreaming s = true →
  videoElement s = Some video →
  ws s = Some sock →
  bufferedAmount sock ≤ 1024 * 50 →
  tooSoon (now - lastFrameTime s) (frameRate s) = false →
  2 ≤ v_readyState video →
  videoWidth video ≠ 0 →
  videoHeight video ≠ 0 →
  ws_readyState sock ≠ OPEN →
  lastFrameTime (captureAndSendFrame toDataURL now s).1 = now ∧
  (captureAndSendFrame toDataURL now s).2 = [] ∧
  frameDropCount (captureAndSendFrame toDataURL now s).1 = frameDropCount s ∧
  isStreaming (captureAndSendFrame toDataURL now s).1 = true.
Proof.
  intros Hs Hv Hw Hbuf Hsoon Hready Hwd Hht Hclosed.
  unfold captureAndSendFrame. rewrite Hs, Hv, Hw, Hsoon.
  destruct (Z.ltb_spec (1024 * 50) (bufferedAmount sock)); [lia|].
  destruct (Z.ltb_spec (v_readyState video) 2); [lia|].
  destruct (Z.eqb_spec (videoWidth video) 0); [done|].
  destruct (Z.eqb_spec (videoHeight video) 0); [done|]. simpl.
  destruct (toDataURL _ _ _ _); [|done].
  destruct (ws_readyState sock); simpl; done.
Qed.

End Tick.


(** A tick while the socket is closing. *)
Lemma frame_lost_when_socket_not_open_witness :
  captureAndSendFrame jpeg_stub 1100
      (streaming_at_10fps (mkWebSocket CLOSING 0) playing_video)
    = (set_canvasSize 320 240 (set_lastFrameTime 1100
         (streaming_at_10fps (mkWebSocket CLOSING 0) playing_video)), []) ∧
  lastFrameTime (captureAndSendFrame jpeg_stub 1100
      (streaming_at_10fps (mkWebSocket CLOSING 0) playing_video)).1 = 1100.
Proof.
  split; [reflexivity|].
  apply (frame_lost_when_socket_not_open jpeg_stub 1100
           (streaming_at_10fps (mkWebSocket CLOSING 0) playing_video)
           playing_video (mkWebSocket CLOSING 0));
    [reflexivity | reflexivity | reflexivity | simpl; lia | reflexivity
    | simpl; lia | discriminate | discriminate | discriminate].
Defined.

(** *** Starting, stopping, restarting *)

(** X7: whatever the streamer's state, a [startStreaming] right after a
    [startStreaming] does nothing: no second timer is set and no field
    changes, with any rate and any timer id. *)
Theorem second_start_does_nothing
    (rate1 rate2 : Z) (id1 id2 : positive) (s : ROS2ImageStreamer) :
  startStreaming rate2 id2 (startStreaming rate1 id1 s).1
    = ((startStreaming rate1 id1 s).1, []).
Proof.
  unfold startStreaming.
  destruct (isStreaming s) eqn:Hs; simpl; [by rewrite Hs|].
  destruct (ws_open s) eqn:Hw; simpl; [|by rewrite Hs, Hw].
  destruct (videoElement s) as [v|] eqn:Hv; simpl; [done|].
  by rewrite Hs, Hw, Hv.
Qed.

(** X8: a streamer that is idle, has an open socket and a video element
    starts with exactly one [setInterval]; stopping it clears exactly that
    timer and forgets its id; the rate of the start is kept, the counters
    restart from zero. *)
Theorem start_then_stop_clears_the_timer
    (rate : Z) (id : positive) (s : ROS2ImageStreamer) :
  isStreaming s = false →
  ws_open s = true →
  is_Some (videoElement s) →
  (startStreaming rate id s).2 = [SetInterval id rate] ∧
  isStreaming (startStreaming rate id s).1 = true ∧
  intervalId (startStreaming rate id s).1 = Some id ∧
  frameDropCount (startStreaming rate id s).1 = 0 ∧
  lastFrameTime (startStreaming rate id s).1 = 0 ∧
  (stopStreaming (startStreaming rate id s).1).2 = [ClearInterval id] ∧
  isStreaming (stopStreaming (startStreaming rate id s).1).1 = false ∧
  intervalId (stopStreaming (startStreaming rate id s).1).1 = None ∧
  frameRate (stopStreaming (startStreaming rate id s).1).1 = rate.
Proof.
  intros Hs Hw [v Hv]. unfold startStreaming, stopStreaming.
  rewrite Hs, Hw, Hv. simpl. done.
Qed.

Lemma start_then_stop_clears_the_timer_witness :
  (stopStreaming
     (startStreaming 10 7%positive
        (connect true (new_ROS2ImageStreamer (Some playing_video)).1)).1).2
    = [ClearInterval 7%positive].
Proof.
  refine (proj1 (proj2 (proj2 (proj2 (proj2 (proj2
    (start_then_stop_clears_the_timer 10 7%positive
       (connect true (new_ROS2ImageStreamer (Some playing_video)).1)
       eq_refl eq_refl (mk_is_Some _ _ eq_refl)))))))).
Defined.

(** X9: when the socket closes while the streamer is streaming, the
    [onclose] handler clears [isStreaming] but not the timer; after that
    neither [stopStreaming] nor [disconnect] calls [clearInterval]: the
    timer id stays in [intervalId] and the timer keeps firing. *)
Theorem socket_close_leaks_the_timer (id : positive) (s : ROS2ImageStreamer) :
  isStreaming s = true →
  intervalId s = Some id →
  stopStreaming (onclose s) = (onclose s, []) ∧
  intervalId (disconnect (onclose s)).1 = Some id ∧
  ClearInterval id ∉ (disconnect (onclose s)).2.
Proof.
  intros Hs Hi. unfold disconnect, stopStreaming, onclose.
  destruct s as [v w ca cw ch st fr iid lt dc sf q]. simpl in *. subst.
  split; [done|]. destruct w; simpl; destruct ca; simpl; split; try done;
    intros H; repeat (apply elem_of_cons in H as [H|H]; [discriminate|]);
    by apply elem_of_nil in H.
Qed.

Lemma socket_close_leaks_the_timer_witness :
  intervalId
    (disconnect (onclose (streaming_at_10fps (mkWebSocket OPEN 0) playing_video))).1
    = Some 1%positive.
Proof.
  refine (proj1 (proj2 (socket_close_leaks_the_timer 1%positive
    (streaming_at_10fps (mkWebSocket OPEN 0) playing_video) eq_refl eq_refl))).
Defined.

(** X10: of two [setFrameRate] calls made on a streaming streamer before
    the first one's restart fires, the second is lost: the first stops the
    stream and schedules a restart with its own rate, the second only
    stores its rate and schedules nothing, and when the restart fires the
    stream runs at the first rate. *)
Theorem second_setFrameRate_is_lost
    (rate1 rate2 : Z) (id : positive) (s : ROS2ImageStreamer) :
  isStreaming s = true →
  ws_open s = true →
  is_Some (videoElement s) →
  (setFrameRate rate1 s).2 = Some (RestartWith rate1) ∧
  (setFrameRate rate2 (setFrameRate rate1 s).1.1).2 = None ∧
  frameRate (setFrameRate rate2 (setFrameRate rate1 s).1.1).1.1 = rate2 ∧
  frameRate (fire (RestartWith rate1) id
               (setFrameRate rate2 (setFrameRate rate1 s).1.1).1.1).1 = rate1 ∧
  (fire (RestartWith rate1) id
     (setFrameRate rate2 (setFrameRate rate1 s).1.1).1.1).2
    = [SetInterval id rate1].
Proof.
  intros Hs Hw [v Hv].
  destruct s as [vid w ca cw ch st fr iid lt dc sf q]. simpl in *. subst.
  unfold setFrameRate, stopStreaming, fire, startStreaming, ws_open in *.
  simpl in *. destruct iid; simpl; rewrite Hw; done.
Qed.

Lemma second_setFrameRate_is_lost_witness :
  frameRate (fire (RestartWith 5) 2%positive
    (setFrameRate 30
       (setFrameRate 5 (streaming_at_10fps (mkWebSocket OPEN 0) playing_video)).1.1).1.1).1
    = 5.
Proof.
  refine (proj1 (proj2 (proj2 (proj2 (second_setFrameRate_is_lost 5 30 2%positive
    (streaming_at_10fps (mkWebSocket OPEN 0) playing_video)
    eq_refl eq_refl (mk_is_Some _ _ eq_refl)))))).
Defined.

(** X11: a level that is none of the three presets (and no property of
    [Object.prototype]) is treated exactly as ['balanced']; and whatever
    the level, the streamer ends with one of the three presets, so with a
    frame rate between 5 and 12 and a scale factor and a quality above 0
    and at most 1. *)
Theorem adjustPerformance_falls_back_to_balanced
    (level : string) (s : ROS2ImageStreamer) :
  existsb (String.eqb level) inherited = false →
  (settings level = None →
   adjustPerformance level s = adjustPerformance "balanced" s) ∧
  ∃ s' es r, adjustPerformance level s = Some (s', es, r) ∧
    5 ≤ frameRate s' ≤ 12 ∧
    (0 < scaleFactor s' ∧ scaleFactor s' <= 1)%Q ∧
    (0 < quality s' ∧ quality s' <= 1)%Q.
Proof.
  intros Hin. unfold adjustPerformance. rewrite Hin. split.
  - intros Hnone. rewrite Hnone. done.
  - unfold settings.
    destruct (String.eqb level "high_quality");
      [|destruct (String.eqb level "balanced");
        [|destruct (String.eqb level "low_latency")]];
      simpl; unfold stopStreaming; simpl;
      destruct (isStreaming s); simpl; try destruct (intervalId s); simpl;
      eexists _, _, _; (split; [reflexivity|]); simpl;
      (split; [lia|]); split; split; reflexivity || (intros H; discriminate H).
Qed.

Lemma adjustPerformance_falls_back_to_balanced_witness :
  adjustPerformance "turbo" (streaming_at_10fps (mkWebSocket OPEN 0) playing_video)
    = adjustPerformance "balanced"
        (streaming_at_10fps (mkWebSocket OPEN 0) playing_video).
Proof.
  refine (proj1 (adjustPerformance_falls_back_to_balanced "turbo"
    (streaming_at_10fps (mkWebSocket OPEN 0) playing_video) eq_refl) eq_refl).
Defined.

(** X12: [isConnected()] holds exactly when [getConnectionStatus()] is
    ['connected'], the status is ['disconnected'] exactly when the streamer
    has no socket, and after [disconnect()] it is ['disconnected']
    whatever it was. *)
Theorem connection_status_agrees (s : ROS2ImageStreamer) :
  (isConnected s = true ↔ getConnectionStatus s = "connected") ∧
  (getConnectionStatus s = "disconnected" ↔ ws s = None) ∧
  getConnectionStatus (disconnect s).1 = "disconnected" ∧
  isConnected (disconnect s).1 = false.
Proof.
  unfold isConnected, getConnectionStatus, disconnect, stopStreaming.
  destruct s as [vid w ca cw ch st fr iid lt dc sf q]. simpl.
  split; [|split; [|split]].
  - destruct w as [[[] b]|]; simpl; split; done.
  - destruct w as [[[] b]|]; simpl; split; done.
  - destruct st; simpl; destruct iid; simpl; destruct w; simpl; destruct ca; done.
  - destruct st; simpl; destruct iid; simpl; destruct w; simpl; destruct ca; done.
Qed.

(** *** Ticks *)

Section Run.

Variable toDataURL : VideoElement -> Z -> Z -> Q -> option string.

Lemma tick_keeps_the_configuration_rate (now : Z) (s : ROS2ImageStreamer) :
  frameRate (captureAndSendFrame toDataURL now s).1 = frameRate s.
Proof.
  unfold captureAndSendFrame.
  destruct (isStreaming s); [|done].
  destruct (videoElement s) as [video|]; [|done].
  destruct (ws s) as [sock|]; [|done].
  destruct (1024 * 50 <? bufferedAmount sock); [done|].
  destruct (tooSoon _ _); [done|].
  destruct (v_readyState video <? 2); [done|].
  destruct (_ || _); [done|].
  destruct (toDataURL _ _ _ _); [|done].
  by destruct (readyState_eqb _ _).
Qed.

(** X13: a tick never touches the streaming flag, the timer id, the rate,
    the scale factor, the quality, the socket or the video element; it
    hands the socket at most one frame; the drop counter stays or goes up
    by one, and it goes up only on a tick that sends nothing and leaves
    [lastFrameTime] alone. *)
Theorem tick_keeps_the_configuration (now : Z) (s : ROS2ImageStreamer) :
  isStreaming (captureAndSendFrame toDataURL now s).1 = isStreaming s ∧
  intervalId (captureAndSendFrame toDataURL now s).1 = intervalId s ∧
  frameRate (captureAndSendFrame toDataURL now s).1 = frameRate s ∧
  scaleFactor (captureAndSendFrame toDataURL now s).1 = scaleFactor s ∧
  quality (captureAndSendFrame toDataURL now s).1 = quality s ∧
  ws (captureAndSendFrame toDataURL now s).1 = ws s ∧
  videoElement (captureAndSendFrame toDataURL now s).1 = videoElement s ∧
  (length (captureAndSendFrame toDataURL now s).2 ≤ 1)%nat ∧
  ((frameDropCount (captureAndSendFrame toDataURL now s).1 = frameDropCount s) ∨
   (frameDropCount (captureAndSendFrame toDataURL now s).1 = frameDropCount s + 1 ∧
    (captureAndSendFrame toDataURL now s).2 = [] ∧
    lastFrameTime (captureAndSendFrame toDataURL now s).1 = lastFrameTime s)).
Proof.
  unfold captureAndSendFrame.
  destruct (isStreaming s) eqn:Hs; [|simpl; repeat split; try done; auto].
  destruct (videoElement s) as [video|] eqn:Hv; [|simpl; repeat split; try done; auto].
  destruct (ws s) as [sock|] eqn:Hw; [|simpl; repeat split; try done; auto].
  destruct (1024 * 50 <? bufferedAmount sock);
    [simpl; repeat split; try done; auto|].
  destruct (tooSoon _ _); [simpl; repeat split; try done; auto|].
  destruct (v_readyState video <? 2); [simpl; repeat split; try done; auto|].
  destruct (_ || _); [simpl; repeat split; try done; auto|].
  destruct (toDataURL _ _ _ _); [|simpl; repeat split; try done; auto].
  destruct (readyState_eqb _ _); simpl; repeat split; try done; auto.
Qed.

(** X14: a tick of a streaming producer that is not congested, not too
    early, has a ready video of nonzero size, an encoder that succeeds and
    an open socket sends exactly one frame: the encoder's output, the video
    size scaled by [scaleFactor] and rounded down, encoding ['jpeg'], and
    [now] both as [timestamp] and as [captureTime]; [lastFrameTime] becomes
    [now] and nothing is counted as dropped. *)
Theorem tick_sends_one_frame
    (now : Z) (s : ROS2ImageStreamer) (video : VideoElement)
    (sock : WebSocket) (base64Data : string) :
  isStreaming s = true →
  videoElement s = Some video →
  ws s = Some sock →
  bufferedAmount sock ≤ 1024 * 50 →
  tooSoon (now - lastFrameTime s) (frameRate s) = false →
  2 ≤ v_readyState video →
  videoWidth video ≠ 0 →
  videoHeight video ≠ 0 →
  toDataURL video (Qfloor (inject_Z (videoWidth video) * scaleFactor s))
    (Qfloor (inject_Z (videoHeight video) * scaleFactor s)) (quality s)
    = Some base64Data →
  ws_readyState sock = OPEN →
  (captureAndSendFrame toDataURL now s).2
    = [WsSend (mkFrame base64Data
                 (Qfloor (inject_Z (videoWidth video) * scaleFactor s))
                 (Qfloor (inject_Z (videoHeight video) * scaleFactor s))
                 "jpeg" now now)] ∧
  lastFrameTime (captureAndSendFrame toDataURL now s).1 = now ∧
  frameDropCount (captureAndSendFrame toDataURL now s).1 = frameDropCount s.
Proof.
  intros Hs Hv Hw Hbuf Hsoon Hready Hwd Hht Henc Hopen.
  unfold captureAndSendFrame. rewrite Hs, Hv, Hw, Hsoon.
  destruct (Z.ltb_spec (1024 * 50) (bufferedAmount sock)); [lia|].
  destruct (Z.ltb_spec (v_readyState video) 2); [lia|].
  destruct (Z.eqb_spec (videoWidth video) 0); [done|].
  destruct (Z.eqb_spec (videoHeight video) 0); [done|].
  cbn [orb]. cbv zeta. rewrite Henc, Hopen. done.
Qed.

(** What one tick does to the pacing state. *)
Lemma tick_pacing (now : Z) (s : ROS2ImageStreamer) :
  (sentFrames (captureAndSendFrame toDataURL now s).2 = [] ∧
   lastFrameTime (captureAndSendFrame toDataURL now s).1 = lastFrameTime s) ∨
  (tooSoon (now - lastFrameTime s) (frameRate s) = false ∧
   lastFrameTime (captureAndSendFrame toDataURL now s).1 = now ∧
   (sentFrames (captureAndSendFrame toDataURL now s).2 = [] ∨
    ∃ f, sentFrames (captureAndSendFrame toDataURL now s).2 = [f] ∧
         timestamp f = now)).
Proof.
  unfold captureAndSendFrame.
  destruct (isStreaming s); [|by left].
  destruct (videoElement s) as [video|]; [|by left].
  destruct (ws s) as [sock|]; [|by left].
  destruct (1024 * 50 <? bufferedAmount sock); [by left|].
  destruct (tooSoon _ _); [by left|].
  destruct (v_readyState video <? 2); [by left|].
  destruct (_ || _); [by left|]. right. split; [done|].
  destruct (toDataURL _ _ _ _); [|simpl; split; [done | by left]].
  destruct (readyState_eqb _ _); simpl; split; try done; [right | by left].
  by eexists.
Qed.

Lemma paced_earlier (rate last last' : Z) (frames : list ImageFrame) :
  0 < rate → last ≤ last' → paced rate last' frames → paced rate last frames.
Proof.
  intros Hr Hl. destruct frames as [|f rest]; simpl; [done|].
  intros [H1 H2]. split; [nia | done].
Qed.

(** X15: over any run of ticks of a streamer with a positive frame rate,
    whatever the browser shows of the video and of the socket at each tick,
    every frame sent is at least 80% of the frame interval after the
    previous one (and after the [lastFrameTime] the run started with):
    [(t' - t) * frameRate >= 800] for consecutive timestamps. *)
Theorem sent_frames_are_paced (ts : list tick) (s : ROS2ImageStreamer) :
  0 < frameRate s →
  paced (frameRate s) (lastFrameTime s) (runTicks toDataURL ts s).2.
Proof.
  revert s. induction ts as [|t rest IH]; intros s Hr; simpl; [done|].
  set (s0 := observe (tick_video t) (tick_sock t) s).
  assert (Hrate : frameRate (captureAndSendFrame toDataURL (tick_now t) s0).1
                  = frameRate s)
    by apply (tick_keeps_the_configuration_rate (tick_now t) s0).
  specialize (IH (captureAndSendFrame toDataURL (tick_now t) s0).1).
  rewrite Hrate in IH. specialize (IH Hr).
  destruct (tick_pacing (tick_now t) s0) as [[Hnone Hlast] | (Hsoon & Hlast & Hsent)].
  - rewrite Hnone. simpl. by rewrite Hlast in IH.
  - rewrite Hlast in IH. change (lastFrameTime s0) with (lastFrameTime s) in Hsoon.
    change (frameRate s0) with (frameRate s) in Hsoon.
    rewrite (tooSoon_integer _ _ Hr) in Hsoon. apply Z.ltb_ge in Hsoon.
    destruct Hsent as [Hnone | (f & Hf & Hts)].
    + rewrite Hnone. simpl. apply (paced_earlier _ _ (tick_now t)); [done | nia | done].
    + rewrite Hf. simpl. rewrite Hts. split; [lia | done].
Qed.

End Run.

Lemma tick_sends_one_frame_witness :
  (captureAndSendFrame jpeg_stub 1100
     (streaming_at_10fps (mkWebSocket OPEN 0) playing_video)).2
    = [WsSend (mkFrame "/9j/4AAQ" 320 240 "jpeg" 1100 1100)].
Proof.
  refine (proj1 (tick_sends_one_frame jpeg_stub 1100
    (streaming_at_10fps (mkWebSocket OPEN 0) playing_video)
    playing_video (mkWebSocket OPEN 0) "/9j/4AAQ"
    eq_refl eq_refl eq_refl _ eq_refl _ _ _ eq_refl eq_refl));
    simpl; (lia || discriminate).
Defined.

Lemma sent_frames_are_paced_witness :
  paced 10 1000
    (runTicks jpeg_stub
       [mkTick 1100 playing_video (mkWebSocket OPEN 0);
        mkTick 1150 playing_video (mkWebSocket OPEN 0);
        mkTick 1200 playing_video (mkWebSocket OPEN 0)]
       (streaming_at_10fps (mkWebSocket OPEN 0) playing_video)).2.
Proof.
  apply (sent_frames_are_paced jpeg_stub _
           (streaming_at_10fps (mkWebSocket OPEN 0) playing_video)).
  simpl. lia.
Defined.

End StreamerFacts.

(** * Properties of the frame consumer *)

Module PublisherFacts.
Import Publisher.

Ltac in_list := repeat (apply elem_of_cons; first [by left | right]).

Section Consumer.

Variable base64 : string -> list Z.

(** A frame that comes too early is counted and nothing else happens. *)
Lemma rate_limited (p : ROS2ImagePublisherCompressed) frameData now elapsed accepted :
  isInitialized p = true →
  is_Some (publisher p) →
  Qltb (inject_Z (now - lastPublishTime p)) (minPublishInterval p) = true →
  publishCompressedImageFrame base64 frameData now elapsed accepted p = (drop p, Normal tt).
Proof.
  intros Hi Hp Hq. unfold publishCompressedImageFrame.
  rewrite Hi, (bool_decide_eq_true_2 _ Hp), Hq. done.
Qed.

(** A frame that comes late enough to an idle publisher is attempted, and
    whatever the [try] block does, the flag is cleared afterwards and
    nothing is thrown. *)
Lemma attempted (p : ROS2ImagePublisherCompressed) frameData now elapsed accepted :
  isInitialized p = true →
  is_Some (publisher p) →
  isProcessing p = false →
  Qltb (inject_Z (now - lastPublishTime p)) (minPublishInterval p) = false →
  publishCompressedImageFrame base64 frameData now elapsed accepted p
    = (set_isProcessing false
         (tryBlock base64 frameData now elapsed accepted
            (set_lastPublishTime now (set_isProcessing true p))).1,
       Normal tt).
Proof.
  intros Hi Hp Hb Hq. unfold publishCompressedImageFrame.
  rewrite Hi, (bool_decide_eq_true_2 _ Hp), Hq, Hb. simpl.
  destruct (tryBlock _ _ _ _ _ _) as [p2 [[]|e]]; done.
Qed.

(** The [try] block never touches the rate-limit fields, the counter or
    the flags. *)
Lemma tryBlock_keeps (p : ROS2ImagePublisherCompressed) frameData now elapsed accepted :
  let p' := (tryBlock base64 frameData now elapsed accepted p).1 in
  isInitialized p' = isInitialized p ∧ isProcessing p' = isProcessing p ∧
  frameDropCount p' = frameDropCount p ∧ lastPublishTime p' = lastPublishTime p ∧
  minPublishInterval p' = minPublishInterval p ∧
  (is_Some (publisher p) → is_Some (publisher p')).
Proof.
  unfold tryBlock. destruct frameData as [fd|]; [|done].
  destruct (imageData fd); [|done]. destruct accepted; [|done]. simpl.
  repeat split; try done. intros [l ->]. by eexists.
Qed.

Lemma tryBlock_success (p : ROS2ImagePublisherCompressed) fd b64 now elapsed :
  imageData fd = Some b64 →
  published (tryBlock base64 (Some fd) now elapsed true p).1
    = match publisher p with
      | Some l => l ++ [compressedImageMsg base64 now b64]
      | None => []
      end.
Proof.
  intros H. unfold tryBlock, published. rewrite H. simpl. by destruct (publisher p).
Qed.

Lemma tryBlock_throw (p : ROS2ImagePublisherCompressed) frameData now elapsed accepted e :
  (tryBlock base64 frameData now elapsed accepted p).2 = Throw e →
  (tryBlock base64 frameData now elapsed accepted p).1 = p.
Proof.
  unfold tryBlock. destruct frameData as [fd|]; [|done].
  destruct (imageData fd); [|done]. by destruct accepted.
Qed.

(** C6: a publisher with [minPublishInterval = 100] and the flag clear gets
    five frames within 50 ms, the first at least 100 ms after the last
    publish. Four of them are dropped and counted (the counter goes up by
    exactly 4), one is taken up, and it is published when it decodes and
    the sink accepts it. In general, a frame that arrives strictly less than
    [minPublishInterval] after [lastPublishTime] only increments the drop
    counter: nothing is published and nothing else changes. *)
Theorem burst_publishes_one_drops_four
    (p : ROS2ImagePublisherCompressed) (log : list CompressedImage)
    (a1 a2 a3 a4 a5 : arrival) :
  isInitialized p = true →
  publisher p = Some log →
  isProcessing p = false →
  minPublishInterval p = 100%Q →
  100 ≤ at_ms a1 - lastPublishTime p →
  (∀ a, a ∈ [a2; a3; a4; a5] → at_ms a1 ≤ at_ms a ≤ at_ms a1 + 50) →
  (frameDropCount (receiveAll base64 [a1; a2; a3; a4; a5] p) = frameDropCount p + 4 ∧
   lastPublishTime (receiveAll base64 [a1; a2; a3; a4; a5] p) = at_ms a1 ∧
   (∀ fd b64,
      frame a1 = Some fd → imageData fd = Some b64 → sinkAccepts a1 = true →
      published (receiveAll base64 [a1; a2; a3; a4; a5] p)
        = log ++ [compressedImageMsg base64 (at_ms a1) b64]) ∧
   (length (published (receiveAll base64 [a1; a2; a3; a4; a5] p))
      ≤ S (length log))%nat) ∧
  (∀ (q : ROS2ImagePublisherCompressed) (a : arrival),
     isInitialized q = true →
     is_Some (publisher q) →
     (inject_Z (at_ms a - lastPublishTime q) < minPublishInterval q)%Q →
     receive base64 q a = set_frameDropCount (frameDropCount q + 1) q ∧
     published (receive base64 q a) = published q).
Proof.
  intros Hi Hp Hb Hm Hfirst Hwin. split.
  - set (p1 := receive base64 p a1).
    assert (H1 : p1 = set_isProcessing false
        (tryBlock base64 (frame a1) (at_ms a1) (took_ms a1) (sinkAccepts a1)
           (set_lastPublishTime (at_ms a1) (set_isProcessing true p))).1).
    { unfold p1, receive. rewrite attempted; try done.
      rewrite Hm. change 100%Q with (inject_Z 100). rewrite Qltb_inject_Z.
      apply Z.ltb_ge. lia. }
    pose proof (tryBlock_keeps (set_lastPublishTime (at_ms a1) (set_isProcessing true p))
      (frame a1) (at_ms a1) (took_ms a1) (sinkAccepts a1))
      as (Ki & _ & Kd & Kt & Km & Kp). simpl in Ki, Kd, Kt, Km, Kp.
    assert (Hdrop : ∀ (q : ROS2ImagePublisherCompressed) (a : arrival),
      isInitialized q = true → is_Some (publisher q) →
      minPublishInterval q = 100%Q → lastPublishTime q = at_ms a1 →
      a ∈ [a2; a3; a4; a5] → receive base64 q a = drop q).
    { intros q a Qi Qp Qm Qt Ha. unfold receive. rewrite rate_limited; try done.
      rewrite Qm, Qt. change 100%Q with (inject_Z 100). rewrite Qltb_inject_Z.
      apply Z.ltb_lt. specialize (Hwin a Ha). lia. }
    assert (Q1 : isInitialized p1 = true ∧ is_Some (publisher p1) ∧
                 minPublishInterval p1 = 100%Q ∧ lastPublishTime p1 = at_ms a1 ∧
                 frameDropCount p1 = frameDropCount p).
    { rewrite H1. simpl. rewrite Ki, Km, Kt, Kd. repeat split; try done.
      apply Kp. rewrite Hp. by eexists. }
    destruct Q1 as (Q1i & Q1p & Q1m & Q1t & Q1d).
    unfold receiveAll. simpl. fold p1.
    rewrite (Hdrop p1 a2) by (try done; in_list).
    rewrite (Hdrop (drop p1) a3) by (try done; in_list).
    rewrite (Hdrop (drop (drop p1)) a4) by (try done; in_list).
    rewrite (Hdrop (drop (drop (drop p1))) a5) by (try done; in_list).
    simpl. repeat split.
    + lia.
    + done.
    + intros fd b64 Hf Hd Ha. unfold published. simpl. rewrite H1. simpl.
      rewrite Hf, Ha. fold (published (tryBlock base64 (Some fd) (at_ms a1) (took_ms a1) true
        (set_lastPublishTime (at_ms a1) (set_isProcessing true p))).1).
      rewrite (tryBlock_success _ _ _ _ _ Hd). simpl. by rewrite Hp.
    + unfold published. simpl. rewrite H1. simpl. unfold tryBlock.
      destruct (frame a1) as [fd|]; simpl; [|rewrite Hp; simpl; lia].
      destruct (imageData fd); simpl; [|rewrite Hp; simpl; lia].
      destruct (sinkAccepts a1); simpl; rewrite Hp; simpl; [|lia].
      rewrite length_app. simpl. lia.
  - intros q a Qi Qp Hlt. unfold receive. rewrite rate_limited; try done.
    unfold Qltb. apply negb_true_iff. destruct (Qle_bool _ _) eqn:E; [|done].
    apply Qle_bool_iff in E. by apply Qlt_not_le in Hlt.
Qed.

(** Whatever arrives, an initialised publisher whose flag is clear ends the
    call with the flag clear and without throwing. *)
Lemma publish_flag_clear (p : ROS2ImagePublisherCompressed) frameData now elapsed accepted :
  isProcessing p = false →
  (publishCompressedImageFrame base64 frameData now elapsed accepted p).2 = Normal tt ∧
  isProcessing (publishCompressedImageFrame base64 frameData now elapsed accepted p).1
    = false.
Proof.
  intros Hb. unfold publishCompressedImageFrame.
  destruct (negb (isInitialized p) || _); [done|].
  destruct (Qltb _ _); [done|]. rewrite Hb.
  destruct (tryBlock _ _ _ _ _ _) as [p2 [[]|e]]; done.
Qed.

(** C8: the processing flag is cleared at the end of every attempt, whether
    the [try] block completes or throws (no frame data, undecodable image
    data, or a sink that throws): the call never throws, the flag is clear
    afterwards, and a later frame that is outside the rate-limit window,
    decodes and is accepted by the sink is published. *)
Theorem processing_flag_cleared_on_every_path
    (p : ROS2ImagePublisherCompressed) (frameData : option FrameData)
    (now elapsed : Z) (accepted : bool) :
  isInitialized p = true →
  is_Some (publisher p) →
  isProcessing p = false →
  (publishCompressedImageFrame base64 frameData now elapsed accepted p).2 = Normal tt ∧
  isProcessing (publishCompressedImageFrame base64 frameData now elapsed accepted p).1
    = false ∧
  ∀ (next : arrival) (fd : FrameData) (b64 : string),
    ¬ (inject_Z (at_ms next
                 - lastPublishTime
                     (publishCompressedImageFrame base64 frameData now elapsed accepted p).1)
       < minPublishInterval p)%Q →
    frame next = Some fd → imageData fd = Some b64 → sinkAccepts next = true →
    published
      (receive base64
         (publishCompressedImageFrame base64 frameData now elapsed accepted p).1 next)
      = published (publishCompressedImageFrame base64 frameData now elapsed accepted p).1
        ++ [compressedImageMsg base64 (at_ms next) b64].
Proof.
  intros Hi Hp Hb.
  destruct (publish_flag_clear p frameData now elapsed accepted Hb) as [Hr Hf].
  split; [done|]. split; [done|].
  set (p1 := (publishCompressedImageFrame base64 frameData now elapsed accepted p).1) in *.
  assert (K : isInitialized p1 = true ∧ is_Some (publisher p1) ∧
              minPublishInterval p1 = minPublishInterval p).
  { unfold p1, publishCompressedImageFrame.
    rewrite Hi, (bool_decide_eq_true_2 _ Hp). simpl.
    destruct (Qltb _ _); [done|]. rewrite Hb.
    pose proof (tryBlock_keeps (set_lastPublishTime now (set_isProcessing true p))
      frameData now elapsed accepted) as (Ki & _ & _ & _ & Km & Kp).
    destruct (tryBlock _ _ _ _ _ _) as [p2 r]. simpl in *.
    split; [by rewrite Ki | split; [by apply Kp | done]]. }
  destruct K as (K1 & K2 & K3).
  intros next fd b64 Hlate Hfr Himg Hacc. unfold receive.
  rewrite attempted; try done.
  - cbn [fst]. rewrite Hfr, Hacc.
    transitivity (published (tryBlock base64 (Some fd) (at_ms next) (took_ms next) true
                    (set_lastPublishTime (at_ms next) (set_isProcessing true p1))).1);
      [reflexivity|].
    rewrite (tryBlock_success _ _ _ _ _ Himg). simpl.
    unfold published. by destruct K2 as [l ->].
  - rewrite K3. destruct (Qltb _ _) eqn:E; [|done].
    apply Qltb_lt in E. done.
Qed.

(** C9: when an attempt throws, [lastPublishTime] is already the time of
    the attempt and stays so; nothing was published, nothing counted; and
    every frame that arrives less than [minPublishInterval] after the
    failed attempt is dropped as rate-limited, the same as after a
    successful publish at that time. *)
Theorem failed_attempt_uses_up_the_window
    (p : ROS2ImagePublisherCompressed) (frameData : option FrameData)
    (now elapsed : Z) (accepted : bool) (e : error) :
  isInitialized p = true →
  is_Some (publisher p) →
  isProcessing p = false →
  ¬ (inject_Z (now - lastPublishTime p) < minPublishInterval p)%Q →
  (tryBlock base64 frameData now elapsed accepted
     (set_lastPublishTime now (set_isProcessing true p))).2 = Throw e →
  publishCompressedImageFrame base64 frameData now elapsed accepted p
    = (set_lastPublishTime now p, Normal tt) ∧
  ∀ (next : arrival),
    (inject_Z (at_ms next - now) < minPublishInterval p)%Q →
    receive base64 (set_lastPublishTime now p) next
      = set_frameDropCount (frameDropCount p + 1) (set_lastPublishTime now p) ∧
    ∀ (fd : FrameData) (b64 : string) (took : Z),
      imageData fd = Some b64 →
      receive base64
        (publishCompressedImageFrame base64 (Some fd) now took true p).1 next
      = drop (publishCompressedImageFrame base64 (Some fd) now took true p).1.
Proof.
  intros Hi Hp Hb Hlate Hthrow.
  assert (Hq : Qltb (inject_Z (now - lastPublishTime p)) (minPublishInterval p) = false).
  { destruct (Qltb _ _) eqn:E; [|done]. by apply Qltb_lt in E. }
  split.
  - rewrite attempted; try done. rewrite (tryBlock_throw _ _ _ _ _ _ Hthrow).
    clear -Hb. destruct p; simpl in *. by subst.
  - intros next Hsoon.
    apply Qltb_lt in Hsoon. split.
    + unfold receive. rewrite rate_limited; done.
    + intros fd b64 took Himg. unfold receive. rewrite (attempted p); try done.
      rewrite rate_limited; try done.
      * unfold tryBlock. rewrite Himg. done.
      * unfold tryBlock. rewrite Himg. simpl. destruct Hp as [l ->]. by eexists.
      * unfold tryBlock. rewrite Himg. done.
Qed.

End Consumer.

(** The burst at 1000, 1010, 1020, 1035 and 1050 ms. *)
Lemma burst_publishes_one_drops_four_witness :
  frameDropCount (receiveAll base64_stub burst ready_publisher) = 4 ∧
  published (receiveAll base64_stub burst ready_publisher)
    = [compressedImageMsg base64_stub 1000 "/9j/4AAQ"].
Proof.
  pose proof (burst_publishes_one_drops_four base64_stub ready_publisher []
    (mkArrival (Some good_frame) 1000 1 true)
    (mkArrival (Some good_frame) 1010 1 true)
    (mkArrival (Some good_frame) 1020 1 true)
    (mkArrival (Some good_frame) 1035 1 true)
    (mkArrival (Some good_frame) 1050 1 true)
    eq_refl eq_refl eq_refl eq_refl) as H.
  destruct H as [(Hd & _ & Hpub & _) _].
  - simpl. lia.
  - intros a Ha. simpl. set_unfold. destruct Ha as [->|[->|[->|[->|[]]]]]; simpl; lia.
  - split; [exact Hd|]. exact (Hpub good_frame "/9j/4AAQ" eq_refl eq_refl eq_refl).
Defined.

(** A frame without image data at 1000 ms, then a good frame at 1100 ms. *)
Lemma processing_flag_cleared_on_every_path_witness :
  isProcessing (publishCompressedImageFrame base64_stub (Some bad_frame) 1000 1 true
                  ready_publisher).1 = false ∧
  published
    (receive base64_stub
       (publishCompressedImageFrame base64_stub (Some bad_frame) 1000 1 true
          ready_publisher).1
       (mkArrival (Some good_frame) 1100 1 true))
    = [compressedImageMsg base64_stub 1100 "/9j/4AAQ"].
Proof.
  pose proof (processing_flag_cleared_on_every_path base64_stub ready_publisher
    (Some bad_frame) 1000 1 true eq_refl (mk_is_Some _ _ eq_refl) eq_refl)
    as (_ & Hflag & Hnext).
  split; [exact Hflag|].
  refine (Hnext (mkArrival (Some good_frame) 1100 1 true) good_frame "/9j/4AAQ"
            _ eq_refl eq_refl eq_refl).
  intros H. vm_compute in H. discriminate.
Defined.

(** A frame without image data at 1000 ms, then a good frame at 1099 ms. *)
Lemma failed_attempt_uses_up_the_window_witness :
  publishCompressedImageFrame base64_stub (Some bad_frame) 1000 1 true ready_publisher
    = (set_lastPublishTime 1000 ready_publisher, Normal tt) ∧
  receive base64_stub (set_lastPublishTime 1000 ready_publisher)
    (mkArrival (Some good_frame) 1099 1 true)
    = set_frameDropCount 1 (set_lastPublishTime 1000 ready_publisher).
Proof.
  pose proof (failed_attempt_uses_up_the_window base64_stub ready_publisher
    (Some bad_frame) 1000 1 true TypeError eq_refl (mk_is_Some _ _ eq_refl) eq_refl)
    as H.
  destruct H as [Hrun Hnext].
  - intros H. vm_compute in H. discriminate.
  - reflexivity.
  - split; [exact Hrun|].
    refine (proj1 (Hnext (mkArrival (Some good_frame) 1099 1 true) _)).
    reflexivity.
Defined.

(** *** Stamps, rates and whole runs *)

Lemma stamp_gives_back_the_time_ms
    (base64 : string -> list Z) (now : Z) (b64 : string) :
  0 ≤ now → stamp_ms (compressedImageMsg base64 now b64) = now.
Proof.
  intros Hnow. unfold stamp_ms, compressedImageMsg. simpl.
  rewrite Z.rem_mod_nonneg by lia. rewrite Z.div_mul by lia.
  pose proof (Z.div_mod now 1000 ltac:(lia)). lia.
Qed.

(** X22: for a receive time that is not negative, the header stamp of the
    record is well formed and exact: the nanoseconds are a whole number of
    milliseconds between 0 and 10^9, and seconds and nanoseconds together
    give back the receive time. *)
Theorem stamp_gives_back_the_time
    (base64 : string -> list Z) (now : Z) (b64 : string) :
  0 ≤ now →
  0 ≤ stamp_nanosec (compressedImageMsg base64 now b64) < 1000000000 ∧
  stamp_nanosec (compressedImageMsg base64 now b64) mod 1000000 = 0 ∧
  stamp_ms (compressedImageMsg base64 now b64) = now.
Proof.
  intros Hnow. unfold stamp_ms, compressedImageMsg. simpl.
  rewrite Z.rem_mod_nonneg by lia.
  pose proof (Z.mod_pos_bound now 1000 ltac:(lia)) as Hm.
  pose proof (Z.div_mod now 1000 ltac:(lia)) as Hd.
  split; [lia|]. split.
  - by rewrite Z.mod_mul.
  - rewrite Z.div_mul by lia. lia.
Qed.

Lemma stamp_gives_back_the_time_witness :
  stamp_ms (compressedImageMsg base64_stub 1699999999123 "/9j/4AAQ") = 1699999999123.
Proof.
  apply (stamp_gives_back_the_time base64_stub 1699999999123 "/9j/4AAQ"). lia.
Defined.

Lemma Math_max_floor (x : Q) : (33 <= Math_max 33 x)%Q.
Proof.
  unfold Math_max. destruct (Qle_bool 33 x) eqn:E.
  - by apply Qle_bool_iff.
  - apply Qle_refl.
Qed.

(** X23: [setPublishRate] never sets an interval below 33 ms. For a rate
    from 1 to 30 the interval is [1000 / fps] and [getStats()] reports that
    very rate; a rate above 30, or a negative one, gives the interval 33
    and a reported rate of 30. *)
Theorem setPublishRate_is_capped (fps : Z) (p : ROS2ImagePublisherCompressed) :
  fps ≠ 0 →
  ∃ p', setPublishRate fps p = Some p' ∧
    (33 <= minPublishInterval p')%Q ∧
    (1 ≤ fps ≤ 30 →
       minPublishInterval p' = (1000 / inject_Z fps)%Q ∧
       stats_publishRate (getStats p') = fps) ∧
    (30 < fps ∨ fps < 0 →
       minPublishInterval p' = 33%Q ∧ stats_publishRate (getStats p') = 30).
Proof.
  intros Hne. unfold setPublishRate.
  destruct (Z.eqb_spec fps 0); [done|]. eexists. split; [reflexivity|].
  simpl. split; [apply Math_max_floor|].
  destruct fps as [|f|f]; [done| |].
  - assert (E : Qle_bool 33 (1000 / inject_Z (Z.pos f)) = (Z.pos f <=? 30)).
    { unfold Qle_bool, Qdiv, Qmult, Qinv, inject_Z. simpl.
      match goal with
      | |- (?a <=? ?b) = _ => destruct (Z.leb_spec a b)
      end; destruct (Z.leb_spec (Z.pos f) 30); try done; lia. }
    unfold Math_max. rewrite E. split.
    + intros [_ Hle]. apply Z.leb_le in Hle. rewrite Hle. split; [done|].
      unfold getStats, Math_round, Qfloor, Qplus, Qdiv, Qmult, Qinv, inject_Z. simpl.
      symmetry. apply (Z.div_unique _ _ (Z.pos f) 1000); [left|]; lia.
    + intros [Hgt|Hneg]; [|lia].
      destruct (Z.leb_spec (Z.pos f) 30); [lia|]. done.
  - assert (E : Qle_bool 33 (1000 / inject_Z (Z.neg f)) = false) by done.
    unfold Math_max. rewrite E. split; [lia|]. done.
Qed.

Lemma setPublishRate_is_capped_witness :
  ∃ p', setPublishRate 60 ready_publisher = Some p' ∧ (33 <= minPublishInterval p')%Q.
Proof.
  destruct (setPublishRate_is_capped 60 ready_publisher ltac:(discriminate))
    as (p' & H1 & H2 & _).
  exists p'. by split.
Defined.

Section Runs.

Variable base64 : string -> list Z.

(** One frame either leaves the publisher alone, or is counted as dropped,
    or is attempted: then it was not inside the rate-limit window, the time
    of the attempt becomes the last publish time, and at most the one
    record stamped with that time is published. *)
Lemma receive_cases (p : ROS2ImagePublisherCompressed) (a : arrival) :
  receive base64 p a = p ∨
  receive base64 p a = drop p ∨
  (Qltb (inject_Z (at_ms a - lastPublishTime p)) (minPublishInterval p) = false ∧
   lastPublishTime (receive base64 p a) = at_ms a ∧
   minPublishInterval (receive base64 p a) = minPublishInterval p ∧
   frameDropCount (receive base64 p a) = frameDropCount p ∧
   isInitialized (receive base64 p a) = isInitialized p ∧
   (published (receive base64 p a) = published p ∨
    ∃ b64, published (receive base64 p a)
           = published p ++ [compressedImageMsg base64 (at_ms a) b64])).
Proof.
  unfold receive, publishCompressedImageFrame.
  destruct (negb (isInitialized p) || _); [by left|].
  destruct (Qltb _ _); [right; by left|].
  destruct (isProcessing p); [right; by left|]. right. right.
  split; [done|]. unfold tryBlock.
  destruct (frame a) as [fd|]; [|simpl; repeat split; by left].
  destruct (imageData fd) as [b64|]; [|simpl; repeat split; by left].
  destruct (sinkAccepts a); [|simpl; repeat split; by left].
  simpl. repeat split. unfold published. simpl.
  destruct (publisher p); simpl; [right; by eexists | by left].
Qed.

Lemma spaced_earlier (gap : Q) (last last' : Z) (times : list Z) :
  last ≤ last' → spaced gap last' times → spaced gap last times.
Proof.
  intros Hl. destruct times as [|t rest]; simpl; [done|].
  intros [H1 H2]. split; [|done].
  eapply Qle_trans; [exact H1|]. rewrite <- Zle_Qle. lia.
Qed.

(** X24: whatever arrives and whenever, the records an instance publishes
    are at least [minPublishInterval] apart (for an interval that is not
    negative, and receive times that are not negative): the log only grows,
    and the stamps of what a run adds are each at least the interval after
    the one before, the first after the [lastPublishTime] the run started
    with. *)
Theorem published_records_are_spaced
    (arrivals : list arrival) (p : ROS2ImagePublisherCompressed) :
  (0 <= minPublishInterval p)%Q →
  Forall (fun a => 0 ≤ at_ms a) arrivals →
  ∃ added,
    published (receiveAll base64 arrivals p) = published p ++ added ∧
    spaced (minPublishInterval p) (lastPublishTime p) (stamp_ms <$> added).
Proof.
  revert p. induction arrivals as [|a rest IH]; intros p Hgap Htimes.
  - exists []. simpl. by rewrite app_nil_r.
  - apply Forall_cons in Htimes as [Ha Hrest]. unfold receiveAll. simpl.
    fold (receiveAll base64 rest (receive base64 p a)).
    destruct (receive_cases p a) as [E | [E | (Hq & Hl & Hm & _ & _ & Hpub)]].
    + rewrite E. by apply IH.
    + rewrite E. destruct (IH (drop p) Hgap Hrest) as (added & H1 & H2).
      by exists added.
    + destruct (IH (receive base64 p a)) as (added & H1 & H2);
        [by rewrite Hm | done |].
      rewrite Hm, Hl in H2.
      assert (Hle : (minPublishInterval p <= inject_Z (at_ms a - lastPublishTime p))%Q).
      { apply Qnot_lt_le. intros Hlt. apply Qltb_lt in Hlt. congruence. }
      destruct Hpub as [Hsame | (b64 & Hnew)].
      * exists added. rewrite H1, Hsame. split; [done|].
        apply (spaced_earlier _ _ (at_ms a)); [|done].
        assert (H0 : (0 <= inject_Z (at_ms a - lastPublishTime p))%Q)
          by (eapply Qle_trans; [exact Hgap | exact Hle]).
        change 0%Q with (inject_Z 0) in H0. rewrite <- Zle_Qle in H0. lia.
      * exists (compressedImageMsg base64 (at_ms a) b64 :: added).
        rewrite H1, Hnew, <- app_assoc. split; [done|].
        rewrite fmap_cons. cbn [spaced].
        rewrite (stamp_gives_back_the_time_ms base64 (at_ms a) b64 Ha).
        by split.
Qed.

(** X25: over any run, the drop counter never goes down, the log of
    published records only grows, and every arrival accounts for at most
    one of the two: drops counted plus records published never exceed the
    number of frames received. A publisher that is not initialised is left
    exactly as it was. *)
Theorem every_frame_is_dropped_or_attempted
    (arrivals : list arrival) (p : ROS2ImagePublisherCompressed) :
  frameDropCount p ≤ frameDropCount (receiveAll base64 arrivals p) ∧
  (length (published p) ≤ length (published (receiveAll base64 arrivals p)))%nat ∧
  (frameDropCount (receiveAll base64 arrivals p) - frameDropCount p)
  + (Z.of_nat (length (published (receiveAll base64 arrivals p)))
     - Z.of_nat (length (published p)))
    ≤ Z.of_nat (length arrivals) ∧
  (isInitialized p = false → receiveAll base64 arrivals p = p).
Proof.
  revert p. induction arrivals as [|a rest IH]; intros p.
  - simpl. repeat split; lia.
  - unfold receiveAll. simpl. fold (receiveAll base64 rest (receive base64 p a)).
    destruct (IH (receive base64 p a)) as (I1 & I2 & I3 & I4).
    destruct (receive_cases p a) as [E | [E | (_ & _ & _ & Hd & Hi & Hpub)]].
    + rewrite E in *. repeat split; try lia.
      intros Hinit. destruct (IH p) as (_ & _ & _ & H). by apply H.
    + rewrite E in *. unfold published in *. simpl in *. repeat split; try lia.
      intros Hinit. exfalso. clear -E Hinit.
      unfold receive, publishCompressedImageFrame in E. rewrite Hinit in E.
      simpl in E. unfold drop in E. destruct p. simpl in *.
      injection E. lia.
    + rewrite Hd in *. split; [lia|].
      destruct Hpub as [Hsame | (b64 & Hnew)].
      * rewrite Hsame in *. repeat split; try lia.
        intros Hinit. rewrite <- Hi in Hinit. rewrite (I4 Hinit).
        clear -Hinit Hi. unfold receive, publishCompressedImageFrame in *.
        rewrite Hi in Hinit. by rewrite Hinit.
      * rewrite Hnew, length_app in *. simpl in *. repeat split; try lia.
        intros Hinit. exfalso. clear -Hnew Hinit.
        unfold receive, publishCompressedImageFrame in Hnew. rewrite Hinit in Hnew.
        simpl in Hnew. apply (f_equal length) in Hnew.
        rewrite length_app in Hnew. simpl in Hnew. lia.
Qed.

(** X26: [resetStats()] reopens the rate-limit window. It zeroes the drop
    counter and the two times and keeps everything else, so the next frame
    that comes at a time not below [minPublishInterval], decodes and is
    accepted is published, however recently the last one was. *)
Theorem resetStats_reopens_the_window
    (p : ROS2ImagePublisherCompressed) (log : list CompressedImage)
    (a : arrival) (fd : FrameData) (b64 : string) :
  isInitialized p = true →
  publisher p = Some log →
  isProcessing p = false →
  (minPublishInterval p <= inject_Z (at_ms a))%Q →
  frame a = Some fd → imageData fd = Some b64 → sinkAccepts a = true →
  frameDropCount (resetStats p) = 0 ∧
  published (resetStats p) = log ∧
  published (receive base64 (resetStats p) a)
    = log ++ [compressedImageMsg base64 (at_ms a) b64].
Proof.
  intros Hi Hp Hb Hgap Hf Hd Ha. unfold resetStats, receive, published.
  unfold publishCompressedImageFrame, tryBlock. simpl.
  rewrite Hi, Hp, Hb, Hf, Hd, Ha. simpl.
  assert (E : Qltb (inject_Z (at_ms a - 0)) (minPublishInterval p) = false).
  { destruct (Qltb _ _) eqn:E; [|done]. apply Qltb_lt in E.
    rewrite Z.sub_0_r in E. by apply Qlt_not_le in E. }
  rewrite E. simpl. done.
Qed.

End Runs.

Lemma published_records_are_spaced_witness :
  ∃ added,
    published (receiveAll base64_stub burst ready_publisher)
      = published ready_publisher ++ added ∧
    spaced 100 0 (stamp_ms <$> added).
Proof.
  apply (published_records_are_spaced base64_stub burst ready_publisher).
  - discriminate.
  - unfold burst. repeat (apply Forall_cons; split; [simpl; lia|]). apply Forall_nil_2.
Defined.

Lemma resetStats_reopens_the_window_witness :
  published
    (receive base64_stub
       (resetStats (receive base64_stub ready_publisher
                      (mkArrival (Some good_frame) 1000 1 true)))
       (mkArrival (Some good_frame) 1001 1 true))
    = [compressedImageMsg base64_stub 1000 "/9j/4AAQ";
       compressedImageMsg base64_stub 1001 "/9j/4AAQ"].
Proof.
  refine (proj2 (proj2 (resetStats_reopens_the_window base64_stub
    (receive base64_stub ready_publisher (mkArrival (Some good_frame) 1000 1 true))
    [compressedImageMsg base64_stub 1000 "/9j/4AAQ"]
    (mkArrival (Some good_frame) 1001 1 true) good_frame "/9j/4AAQ"
    eq_refl eq_refl eq_refl _ eq_refl eq_refl eq_refl))).
  discriminate.
Defined.

End PublisherFacts.

(** * Properties of the stream manager *)

Module ManagerFacts.
Import Streamer Manager.


Lemma disconnect_released (s : ROS2ImageStreamer) :
  isStreaming (disconnect s).1 = false ∧ ws (disconnect s).1 = None ∧
  canvasAttached (disconnect s).1 = false.
Proof.
  unfold disconnect, stopStreaming.
  destruct s as [v w ca cw ch st fr iid lt dc sf q]; simpl.
  destruct st; simpl; destruct iid; simpl; destruct w; simpl; destruct ca; done.
Qed.

Lemma disconnect_at_keeps (b : nat) (c : client) :
  ongoingStreams (disconnect_at b c) = ongoingStreams c ∧
  prototype (disconnect_at b c) = prototype c ∧
  streams (disconnect_at b c) = streams c ∧
  ∃ es, calls (disconnect_at b c) = calls c ++ map (OnStreamer b) es.
Proof.
  unfold disconnect_at. destruct (streamers c !! b) as [s0|].
  - destruct (disconnect s0) as [s' es]. simpl. repeat split. by exists es.
  - repeat split. exists []. simpl. by rewrite app_nil_r.
Qed.






(** C2 fails on the code. One call whose peer connection delivers two
    tracks, the socket of the first streamer opening before the timeout of
    the second track fires, ends with two streamers, each with its own
    running capture timer on the same video element, and only the second
    is referenced by the stream: a hangup stops that one and leaves the
    first one running. A second call to the same drone leaves two
    [DroneStream] objects for that id with a peer connection each, one of
    them unreachable from the dictionary. *)
Theorem duplicate_producers_and_links :
  (∃ c, two_tracks = Some c ∧
        length (streams c) = 1%nat ∧
        ros2Streamer <$> streams c !! 0%nat = Some (Some 1%nat) ∧
        length (activeProducers c) = 2%nat ∧
        intervalId <$> activeProducers c = [Some 1%positive; Some 2%positive] ∧
        ∃ c', closeDroneStream "drone1" c = Returned c' ∧
              ongoingStreams c' !! "drone1" = None ∧
              intervalId <$> activeProducers c' = [Some 1%positive]) ∧
  length (liveLinks "drone1" two_calls) = 2%nat ∧
  ongoingStreams two_calls !! "drone1" = Some 1%nat.
Proof.
  split; [|split; vm_compute; reflexivity].
  eexists. split; [vm_compute; reflexivity|].
  repeat split; try (vm_compute; reflexivity).
  eexists. split; [vm_compute; reflexivity|].
  split; vm_compute; reflexivity.
Qed.

(** *** Streams coming and going *)

Lemma existsb_false_iff {A} (f : A → bool) (l : list A) :
  existsb f l = false ↔ ∀ x, x ∈ l → f x = false.
Proof.
  induction l as [|y l IH]; simpl.
  - split; [intros _ x Hx; by apply elem_of_nil in Hx | done].
  - rewrite orb_false_iff, IH. split.
    + intros [Hy Hl] x Hx. apply elem_of_cons in Hx as [->|Hx]; auto.
    + intros H. split; [apply H; by left | intros x Hx; apply H; by right].
Qed.

(** X16: after [createDroneStream] the id resolves to the stream just
    built, and every stream object that existed stays as it was, the one
    the id resolved to before included: it is neither closed nor changed.
    For an id other than ["__proto__"] the stream becomes the own entry of
    that id and every other id resolves as before. For ["__proto__"] no
    entry is added: the stream becomes the prototype of the dictionary, and
    from then on the names of its fields resolve too, though not to a
    stream. *)
Theorem createDroneStream_registers
    (droneID : string) (elem : option VideoElement) (pcCreated : bool)
    (c : client) :
  getStreamByDroneID droneID (createDroneStream droneID elem pcCreated c).2
    = Normal (Stream (createDroneStream droneID elem pcCreated c).1) ∧
  streams (createDroneStream droneID elem pcCreated c).2
    !! (createDroneStream droneID elem pcCreated c).1
    = Some (new_DroneStream droneID elem pcCreated) ∧
  (∀ i st, streams c !! i = Some st →
     streams (createDroneStream droneID elem pcCreated c).2 !! i = Some st) ∧
  calls (createDroneStream droneID elem pcCreated c).2 = calls c ∧
  (droneID ≠ "__proto__" →
     ongoingStreams (createDroneStream droneID elem pcCreated c).2
       = <[droneID := (createDroneStream droneID elem pcCreated c).1]>
           (ongoingStreams c) ∧
     prototype (createDroneStream droneID elem pcCreated c).2 = prototype c ∧
     ((∀ a', prototype c = Some a' → (a' < length (streams c))%nat) →
      ∀ other, other ≠ droneID →
        getStreamByDroneID other (createDroneStream droneID elem pcCreated c).2
          = getStreamByDroneID other c)) ∧
  (droneID = "__proto__" → ongoingStreams c !! "__proto__" = None →
     ongoingStreams (createDroneStream droneID elem pcCreated c).2
       = ongoingStreams c ∧
     prototype (createDroneStream droneID elem pcCreated c).2
       = Some (createDroneStream droneID elem pcCreated c).1 ∧
     ∀ field, field ∈ ["droneSocketID"; "streamObj"; "ros2Streamer"] →
       ongoingStreams c !! field = None →
       getStreamByDroneID field (createDroneStream droneID elem pcCreated c).2
         = Normal NotAStream).
Proof.
  unfold createDroneStream.
  destruct (String.eqb droneID "__proto__") eqn:Ep; simpl.
  - apply String.eqb_eq in Ep. subst droneID.
    destruct (ongoingStreams c !! "__proto__") as [a0|] eqn:Hown; simpl.
    + unfold getStreamByDroneID. simpl. rewrite lookup_insert_eq.
      split; [done|]. split; [by rewrite lookup_app_r, Nat.sub_diag|].
      split; [intros i st Hi; by apply lookup_app_l_Some|].
      split; [done|]. split; [done|]. done.
    + unfold getStreamByDroneID. simpl. rewrite Hown. simpl.
      split; [done|]. split; [by rewrite lookup_app_r, Nat.sub_diag|].
      split; [intros i st Hi; by apply lookup_app_l_Some|].
      split; [done|]. split; [done|]. intros _ _.
      split; [done|]. split; [done|].
      intros field Hf Hnone. rewrite Hnone.
      unfold inherits, chain, ownFields. simpl.
      rewrite lookup_app_r, Nat.sub_diag by done. simpl.
      repeat (apply elem_of_cons in Hf as [->|Hf]; [done|]).
      by apply elem_of_nil in Hf.
  - apply String.eqb_neq in Ep.
    unfold getStreamByDroneID at 1. simpl. rewrite lookup_insert_eq.
    split; [done|]. split; [by rewrite lookup_app_r, Nat.sub_diag|].
    split; [intros i st Hi; by apply lookup_app_l_Some|].
    split; [done|]. split; [|done]. intros _.
    split; [done|]. split; [done|].
    intros Hwf other Hne. unfold getStreamByDroneID. simpl.
    rewrite lookup_insert_ne by done.
    destruct (ongoingStreams c !! other); [done|].
    destruct (String.eqb other "__proto__"); [done|].
    assert (E : ∀ n, inherits n
                  (mkClient (<[droneID:=length (streams c)]> (ongoingStreams c))
                     (prototype c)
                     (streams c ++ [new_DroneStream droneID elem pcCreated])
                     (streamers c) (timeouts c) (connecting c) (calls c))
                = inherits n c).
    { intros n. unfold inherits, chain, ownFields, closedBefore. simpl.
      destruct (prototype c) as [a'|] eqn:Hp; [|done].
      rewrite lookup_app_l by (by apply Hwf). done. }
    by rewrite E.
Qed.

(** The second call to ["drone1"] takes over the entry; a call under
    ["__proto__"] adds no entry and becomes the prototype, through which
    ["streamObj"] resolves, to something that is no stream. *)
Lemma createDroneStream_registers_witness :
  getStreamByDroneID "drone1" two_calls = Normal (Stream 1%nat) ∧
  ongoingStreams two_calls = <[ "drone1" := 1%nat ]> (ongoingStreams one_call) ∧
  ongoingStreams proto_call = ∅ ∧
  prototype proto_call = Some 0%nat ∧
  getStreamByDroneID "__proto__" proto_call = Normal (Stream 0%nat) ∧
  getStreamByDroneID "streamObj" proto_call = Normal NotAStream.
Proof.
  pose proof (createDroneStream_registers "drone1" (Some playing_video) true one_call)
    as (H1 & _ & _ & _ & H2 & _).
  pose proof (createDroneStream_registers "__proto__" (Some playing_video) true
                empty_client) as (H3 & _ & _ & _ & _ & H4).
  destruct (H2 ltac:(discriminate)) as (H5 & _).
  destruct (H4 eq_refl eq_refl) as (H6 & H7 & H8).
  split; [exact H1|]. split; [exact H5|]. split; [exact H6|]. split; [exact H7|].
  split; [exact H3|]. apply H8; [|reflexivity].
  apply elem_of_cons; right. apply elem_of_cons; by left.
Defined.

(** X17: a stream whose [RTCPeerConnection] could not be created cannot be
    hung up: [closeDroneStream] throws a [TypeError] at
    [peerConnection.close()], after disconnecting the streamer but before
    deleting the entry, so the id still resolves to the stream and the next
    [closeDroneStream] throws again. *)
Theorem closeDroneStream_without_peerConnection
    (droneID : string) (a : nat) (stream : DroneStream) (c : client) :
  ongoingStreams c !! droneID = Some a →
  streams c !! a = Some stream →
  peerConnection stream = None →
  ∃ c1, closeDroneStream droneID c = Thrown TypeError c1 ∧
        ongoingStreams c1 = ongoingStreams c ∧
        streams c1 = streams c ∧
        ∃ c2, closeDroneStream droneID c1 = Thrown TypeError c2.
Proof.
  intros Hd Ha Hpc. unfold closeDroneStream, getStreamByDroneID.
  rewrite Hd, Ha, Hpc.
  set (c1 := match ros2Streamer stream with
             | Some b => disconnect_at b c
             | None => c
             end).
  assert (H1 : ongoingStreams c1 = ongoingStreams c ∧ streams c1 = streams c).
  { unfold c1. destruct (ros2Streamer stream) as [b|]; [|done].
    destruct (disconnect_at_keeps b c) as (-> & _ & -> & _). done. }
  destruct H1 as [H1 H2]. exists c1. repeat split; try done.
  rewrite H1, H2, Hd, Ha, Hpc. by eexists.
Qed.

Lemma closeDroneStream_without_peerConnection_witness :
  closeDroneStream "drone1"
      (createDroneStream "drone1" (Some playing_video) false empty_client).2
    = Thrown TypeError
        (createDroneStream "drone1" (Some playing_video) false empty_client).2.
Proof.
  destruct (closeDroneStream_without_peerConnection "drone1" 0
    (new_DroneStream "drone1" (Some playing_video) false)
    (createDroneStream "drone1" (Some playing_video) false empty_client).2
    eq_refl eq_refl eq_refl) as (c1 & H & _).
  rewrite H. vm_compute in H. injection H as <-. reflexivity.
Defined.

(** Closing the stream at [a] does not change which names the dictionary
    inherits: the stream keeps its [peerConnection] field, now [null]. *)
Lemma closing_keeps_the_chain
    (n droneID : string) (a : nat) (stream : DroneStream) (c before : client)
    (es : list call) :
  streams c !! a = Some stream →
  is_Some (peerConnection stream) →
  streams before = streams c →
  prototype before = prototype c →
  calls before = calls c ++ es →
  (∀ x, PcClose x ∉ es) →
  inherits n
    (mkClient (delete droneID (ongoingStreams before)) (prototype before)
       (<[a := mkDroneStream (droneSocketID stream) (streamObj stream)
                 (ros2Streamer stream) None]> (streams before))
       (streamers before) (timeouts before) (connecting before)
       (calls before ++ [PcClose a]))
  = inherits n c.
Proof.
  intros Ha [pc Hpc] Hs Hp Hc Hes.
  unfold inherits, chain. cbn [prototype]. rewrite Hp.
  destruct (prototype c) as [a'|]; [|done].
  match goal with
  | |- existsb _ ((?l ++ _) ++ _) = existsb _ ((?r ++ _) ++ _) =>
      assert (E : l = r); [|by rewrite E]
  end.
  unfold ownFields, closedBefore. cbn [streams calls]. rewrite Hs, Hc.
  assert (Hes' : ∀ k, existsb (fun x => match x with
                                       | PcClose a0 => Nat.eqb a0 k
                                       | _ => false
                                       end) es = false).
  { intros k. apply existsb_false_iff. intros [| x |] Hx; try done.
    by apply Hes in Hx. }
  destruct (decide (a' = a)) as [->|Hne].
  - rewrite list_lookup_insert_eq by (by eapply lookup_lt_Some).
    rewrite Ha. cbn [peerConnection]. rewrite Hpc.
    rewrite !existsb_app. cbn [existsb]. rewrite Nat.eqb_refl.
    rewrite (bool_decide_eq_true_2 (is_Some (Some pc))) by (by eexists).
    cbn [orb]. by rewrite !orb_true_r.
  - rewrite list_lookup_insert_ne by done.
    destruct (streams c !! a') as [st|]; [|done].
    rewrite !existsb_app, Hes'. cbn [existsb].
    assert (E : Nat.eqb a a' = false) by (apply Nat.eqb_neq; congruence).
    by rewrite E, !orb_false_r.
Qed.

(** X18: a hangup on a stream that is an own entry of the dictionary and
    has its peer connection returns; it removes the entry of that id and of
    no other, leaves the prototype alone, closes the peer connection once
    and clears the stream's [peerConnection] field, and leaves the streamer
    the stream refers to disconnected. *)
Theorem closeDroneStream_releases
    (droneID : string) (a : nat) (stream : DroneStream) (c : client) :
  ongoingStreams c !! droneID = Some a →
  streams c !! a = Some stream →
  is_Some (peerConnection stream) →
  ∃ c', closeDroneStream droneID c = Returned c' ∧
        ongoingStreams c' = delete droneID (ongoingStreams c) ∧
        prototype c' = prototype c ∧
        (∀ other, other ≠ droneID →
           getStreamByDroneID other c' = getStreamByDroneID other c) ∧
        peerConnection <$> streams c' !! a = Some None ∧
        (∃ es, calls c' = calls c ++ es ++ [PcClose a] ∧
               ∀ x, PcClose x ∉ es) ∧
        (∀ b s, ros2Streamer stream = Some b → streamers c !! b = Some s →
           streamers c' !! b = Some (disconnect s).1 ∧
           isStreaming (disconnect s).1 = false ∧ ws (disconnect s).1 = None).
Proof.
  intros Hd Ha Hpc. pose proof Hpc as [pc Hpc'].
  unfold closeDroneStream, getStreamByDroneID at 1.
  rewrite Hd, Ha, Hpc'. eexists. split; [reflexivity|].
  set (c1 := match ros2Streamer stream with
             | Some b => disconnect_at b c
             | None => c
             end).
  assert (H1 : ongoingStreams c1 = ongoingStreams c ∧ prototype c1 = prototype c ∧
               streams c1 = streams c ∧
               ∃ es, calls c1 = calls c ++ es ∧ ∀ x, PcClose x ∉ es).
  { unfold c1. destruct (ros2Streamer stream) as [b|].
    - destruct (disconnect_at_keeps b c) as (-> & -> & -> & es & ->).
      repeat split. exists (map (OnStreamer b) es). split; [done|].
      intros x Hin. apply list_elem_of_fmap in Hin as (e & He & _). discriminate.
    - repeat split. exists []. split; [by rewrite app_nil_r|].
      intros x. apply not_elem_of_nil. }
  destruct H1 as (H1 & H2 & H3 & es & H4 & H5).
  split; [simpl; by rewrite H1|]. split; [simpl; by rewrite H2|].
  split; [|split; [|split]].
  - intros other Hne. unfold getStreamByDroneID.
    rewrite (closing_keeps_the_chain other droneID a stream c c1 es) by done.
    simpl. rewrite H1, H2, lookup_delete_ne by done. done.
  - simpl. rewrite H3, list_lookup_insert_eq; [done|]. by eapply lookup_lt_Some.
  - exists es. simpl. split; [by rewrite H4, <- app_assoc | done].
  - intros b s0 Hb Hs0. split; [|split; apply disconnect_released].
    simpl. unfold c1, disconnect_at. rewrite Hb, Hs0.
    destruct (disconnect s0) as [s' es'] eqn:E. simpl.
    rewrite list_lookup_insert_eq; [done|]. by eapply lookup_lt_Some.
Qed.

Lemma closeDroneStream_releases_witness :
  ∃ c', closeDroneStream "drone1" one_call = Returned c' ∧
        ongoingStreams c' = delete "drone1" (ongoingStreams one_call).
Proof.
  destruct (closeDroneStream_releases "drone1" 0
    (new_DroneStream "drone1" (Some playing_video) true) one_call
    eq_refl eq_refl (mk_is_Some _ _ eq_refl)) as (c' & H1 & H2 & _).
  exists c'. by split.
Defined.

(** X29: a call made under the id ['__proto__'] cannot be removed from the
    dictionary. The hangup returns and closes the peer connection, but it
    deletes nothing: the id resolves to the same stream afterwards, whose
    [peerConnection] is now [null], so that the stream stays reachable and
    a further hangup throws [TypeError]. *)
Theorem proto_stream_survives_hangup (elem : option VideoElement) (c : client) :
  ongoingStreams c !! "__proto__" = None →
  ∃ c',
    closeDroneStream "__proto__" (createDroneStream "__proto__" elem true c).2
      = Returned c' ∧
    ongoingStreams c' = ongoingStreams c ∧
    getStreamByDroneID "__proto__" c'
      = Normal (Stream (createDroneStream "__proto__" elem true c).1) ∧
    peerConnection <$> streams c' !! (createDroneStream "__proto__" elem true c).1
      = Some None ∧
    calls c' = calls c ++ [PcClose (createDroneStream "__proto__" elem true c).1] ∧
    closeDroneStream "__proto__" c' = Thrown TypeError c'.
Proof.
  intros Hown.
  assert (Hlast : ∀ st : DroneStream,
            (streams c ++ [st]) !! length (streams c) = Some st).
  { intros st. by rewrite lookup_app_r, Nat.sub_diag. }
  assert (Hins : ∀ st st' : DroneStream,
            <[length (streams c) := st']> (streams c ++ [st]) !! length (streams c)
            = Some st').
  { intros st st'. apply list_lookup_insert_eq. rewrite length_app. simpl. lia. }
  unfold createDroneStream. rewrite Hown. simpl.
  unfold closeDroneStream at 1, getStreamByDroneID. simpl.
  rewrite Hown, Hlast. simpl. eexists. split; [reflexivity|].
  assert (Hgone : delete "__proto__" (ongoingStreams c) = ongoingStreams c).
  { apply map_eq. intros k. destruct (decide (k = "__proto__")) as [->|Hne].
    - by rewrite lookup_delete_eq, Hown.
    - by rewrite lookup_delete_ne. }
  simpl. rewrite Hgone. split; [done|]. rewrite Hown. simpl.
  split; [done|]. split; [by rewrite Hins|]. split; [done|].
  unfold closeDroneStream, getStreamByDroneID. simpl. rewrite Hown. simpl.
  by rewrite Hins.
Qed.

Lemma proto_stream_survives_hangup_witness :
  ∃ c', closeDroneStream "__proto__" proto_call = Returned c' ∧
        ongoingStreams c' = ∅ ∧
        getStreamByDroneID "__proto__" c' = Normal (Stream 0%nat) ∧
        closeDroneStream "__proto__" c' = Thrown TypeError c'.
Proof.
  destruct (proto_stream_survives_hangup (Some playing_video) empty_client eq_refl)
    as (c' & H1 & H2 & H3 & _ & _ & H4).
  exists c'. split; [exact H1|]. split; [exact H2|]. split; [exact H3 | exact H4].
Defined.

(** X30: when the socket of a streamer opens after the stream has been
    given a newer streamer (a second track event whose timeout fired in
    between), the callback that waited for it starts the newer streamer,
    not its own: its own socket is open from then on but its timer is
    never started, and if the newer socket is not open yet, nothing is
    started at all. *)
Theorem late_socket_starts_the_newer_streamer
    (a b b' : nat) (id : positive) (c : client) (stream : DroneStream)
    (s s' : ROS2ImageStreamer) (sock : WebSocket) :
  awaiting b (connecting c) = Some a →
  streams c !! a = Some stream →
  ros2Streamer stream = Some b' →
  b' ≠ b →
  streamers c !! b = Some s →
  ws s = Some sock →
  ws_readyState sock = CONNECTING →
  streamers c !! b' = Some s' →
  ∃ c',
    connectSettled b true id c = Some c' ∧
    awaiting b (connecting c') = None ∧
    streamers c' !! b
      = Some (set_ws (Some (mkWebSocket OPEN (bufferedAmount sock))) s) ∧
    (isStreaming <$> streamers c' !! b) = Some (isStreaming s) ∧
    (intervalId <$> streamers c' !! b) = Some (intervalId s) ∧
    streamers c' !! b' = Some (startStreaming 10 id s').1 ∧
    (ws_open s' = false → streamers c' !! b' = Some s' ∧ calls c' = calls c).
Proof.
  intros Ha Hst Hb' Hne Hs Hw Hr Hs'.
  assert (Hlt : (b < length (streamers c))%nat) by (by eapply lookup_lt_Some).
  assert (Hlt' : (b' < length
            (<[b := set_ws (Some (mkWebSocket OPEN (bufferedAmount sock))) s]>
               (streamers c)))%nat).
  { rewrite length_insert. by eapply lookup_lt_Some. }
  assert (Hrest : ∀ l, awaiting b
            (List.filter (fun p : nat * nat => negb (Nat.eqb p.2 b)) l) = None).
  { induction l as [|[x y] l IH]; simpl; [done|].
    destruct (Nat.eqb y b) eqn:E; simpl; [done|]. by rewrite E. }
  unfold connectSettled. rewrite Ha. simpl. rewrite Hs. simpl. rewrite Hst. simpl.
  rewrite Hw. simpl. rewrite Hr, Hb'. simpl.
  rewrite list_lookup_insert_ne by done. rewrite Hs'. simpl.
  destruct (startStreaming 10 id s') as [s'' e] eqn:E. eexists.
  split; [reflexivity|]. simpl.
  split; [apply Hrest|].
  rewrite list_lookup_insert_ne by done.
  rewrite list_lookup_insert_eq by done.
  split; [done|]. split; [done|]. split; [done|].
  rewrite list_lookup_insert_eq by done.
  split; [done|]. intros Hclosed.
  unfold startStreaming in E. rewrite Hclosed in E. simpl in E.
  destruct (isStreaming s'); injection E as <- <-; simpl; by rewrite app_nil_r.
Qed.

(** Two tracks, both timeouts fired, then the first socket opens: nothing
    is started. When the second socket opens too, one timer runs, on the
    second streamer; the first streamer keeps an open socket and is
    referenced by nothing. *)
Lemma late_socket_starts_the_newer_streamer_witness :
  (∃ c, both_connecting = Some c ∧
     ∃ c', connectSettled 0 true 1%positive c = Some c' ∧
           activeProducers c' = [] ∧
           (ws_open <$> streamers c' !! 0%nat) = Some true ∧
           calls c' = calls c) ∧
  (∃ c, two_tracks_sockets_late = Some c ∧
        (intervalId <$> activeProducers c) = [Some 2%positive] ∧
        (ws_open <$> streamers c) = [true; true] ∧
        (isStreaming <$> streamers c) = [false; true] ∧
        (ros2Streamer <$> streams c !! 0%nat) = Some (Some 1%nat)).
Proof.
  split.
  - eexists. split; [vm_compute; reflexivity|].
    match goal with
    | |- ∃ c', connectSettled _ _ _ ?c = _ ∧ _ =>
        destruct (late_socket_starts_the_newer_streamer 0 0 1 1%positive c
                    (mkDroneStream "drone1" (Some playing_video) (Some 1%nat) (Some new))
                    (set_ws (Some (mkWebSocket CONNECTING 0))
                       (new_ROS2ImageStreamer (Some playing_video)).1)
                    (set_ws (Some (mkWebSocket CONNECTING 0))
                       (new_ROS2ImageStreamer (Some playing_video)).1)
                    (mkWebSocket CONNECTING 0)
                    eq_refl eq_refl eq_refl ltac:(discriminate)
                    eq_refl eq_refl eq_refl eq_refl)
          as (c' & H1 & _ & _ & _ & _ & _ & H2)
    end.
    exists c'. split; [exact H1|].
    destruct (H2 eq_refl) as [_ H3]. split; [|split; [|exact H3]].
    + vm_compute in H1. injection H1 as <-. reflexivity.
    + vm_compute in H1. injection H1 as <-. reflexivity.
  - eexists. split; [vm_compute; reflexivity|].
    repeat split; vm_compute; reflexivity.
Defined.

(** *** Signalling *)

(** X19: the socket handler ignores every frame whose event is not
    ['webrtc_msg'], and every ['webrtc_msg'] whose payload type is neither
    ['answer'] nor ['candidate']. When the id it was set up for is no own
    entry of the dictionary (after a hangup), every ['webrtc_msg'] frame
    makes it throw: [KeyError] when the dictionary does not inherit the
    name either, [TypeError] when it does, as for ['constructor'], since
    what the name then yields is no stream. *)
Theorem onmessage_dispatch
    (droneID : string) (fields : list (string * Relay.json)) (pg : page) :
  (Relay.is_string (Relay.obj_get "event" fields) "webrtc_msg" = false →
   onmessage droneID (Relay.JObj fields) pg = Normal pg) ∧
  (Relay.is_string (Relay.obj_get "event" fields) "webrtc_msg" = true →
   ongoingStreams (manager pg) !! droneID = None →
   droneID ≠ "__proto__" →
   onmessage droneID (Relay.JObj fields) pg
     = Throw (if inherits droneID (manager pg) then TypeError else KeyError)) ∧
  (∀ a stream payload,
     Relay.is_string (Relay.obj_get "event" fields) "webrtc_msg" = true →
     ongoingStreams (manager pg) !! droneID = Some a →
     streams (manager pg) !! a = Some stream →
     Relay.obj_get "data" fields = Some (Relay.JObj payload) →
     Relay.is_string (Relay.obj_get "type" payload) "answer" = false →
     Relay.is_string (Relay.obj_get "type" payload) "candidate" = false →
     onmessage droneID (Relay.JObj fields) pg = Normal pg) ∧
  (Relay.is_string (Relay.obj_get "event" fields) "webrtc_msg" = true →
   droneID = "__proto__" →
   ongoingStreams (manager pg) !! droneID = None →
   prototype (manager pg) = None →
   onmessage droneID (Relay.JObj fields) pg = Throw TypeError).
Proof.
  unfold onmessage, getStreamByDroneID, mbind, completion_bind. simpl.
  split; [|split; [|split]].
  - by intros ->.
  - intros -> -> Hne. apply String.eqb_neq in Hne. rewrite Hne.
    by destruct (inherits droneID (manager pg)).
  - intros a stream payload -> -> Hs -> Ht1 Ht2.
    unfold handleIncomingSocketMsg, mbind, completion_bind. simpl.
    by rewrite Hs, Ht1, Ht2.
  - intros -> -> -> ->. done.
Qed.

(** With no stream ongoing, a late answer throws [KeyError]; had the id
    been ['constructor'], it would throw [TypeError]. *)
Lemma onmessage_dispatch_witness :
  onmessage "drone1"
      (Relay.JObj [("event", Relay.JStr "webrtc_msg");
                   ("data", Relay.JObj [("type", Relay.JStr "answer")])])
      (mkPage empty_client (Some []) [])
    = Throw KeyError ∧
  onmessage "constructor"
      (Relay.JObj [("event", Relay.JStr "webrtc_msg");
                   ("data", Relay.JObj [("type", Relay.JStr "answer")])])
      (mkPage empty_client (Some []) [])
    = Throw TypeError.
Proof.
  split.
  - refine (proj1 (proj2 (onmessage_dispatch "drone1"
      [("event", Relay.JStr "webrtc_msg");
       ("data", Relay.JObj [("type", Relay.JStr "answer")])]
      (mkPage empty_client (Some []) []))) eq_refl eq_refl _). discriminate.
  - refine (proj1 (proj2 (onmessage_dispatch "constructor"
      [("event", Relay.JStr "webrtc_msg");
       ("data", Relay.JObj [("type", Relay.JStr "answer")])]
      (mkPage empty_client (Some []) []))) eq_refl eq_refl _). discriminate.
Defined.

(** X20: an offer sent by [startDroneStream] reaches the drone through the
    relay with the caller's id in it. When the stream has its peer
    connection and the manager its socket, the offer goes out as one
    envelope addressed to the stream's drone id; and when that id is not
    empty and registered with the relay, the relay hands the drone's
    connection the offer with [socketID] set to the id it finds for the
    caller's connection. *)
Theorem offer_reaches_the_drone
    (a : nat) (stream : DroneStream) (offer : list (string * Relay.json))
    (sent : list Relay.json) (pg : page)
    (caller drone : Relay.socket) (r : Relay.relay) :
  streams (manager pg) !! a = Some stream →
  is_Some (peerConnection stream) →
  socket pg = Some sent →
  droneSocketID stream ≠ "" →
  Relay.Map_get_str (droneSocketID stream) (Relay.clients r) = Some drone →
  startDroneStream a (Some (Relay.JObj offer)) pg
    = Normal (mkPage (manager pg)
                (Some (sent ++ [envelope (droneSocketID stream) (Relay.JObj offer)]))
                (signalling pg)) ∧
  Relay.onMessage caller (envelope (droneSocketID stream) (Relay.JObj offer)) r
    = Normal (Relay.mkRelay (Relay.clients r)
        (Relay.outbox r ++
           [(drone,
             Relay.JObj
               [("event", Relay.JStr "webrtc_msg");
                ("data",
                 Relay.JObj
                   (Relay.obj_set "socketID"
                      (Relay.id_value (Relay.findClientID (Relay.clients r) caller))
                      offer))])])).
Proof.
  intros Hs [pc Hpc] Hsock Hne Hreg. split.
  - unfold startDroneStream, sendMessage. by rewrite Hs, Hpc, Hsock.
  - unfold Relay.onMessage, Relay.requestedSocketID, envelope, mbind, completion_bind.
    simpl. destruct (String.eqb (droneSocketID stream) "") eqn:E.
    + apply String.eqb_eq in E. done.
    + simpl. by rewrite Hreg.
Qed.

Lemma offer_reaches_the_drone_witness :
  Relay.onMessage 1%nat
      (envelope "b2" (Relay.JObj [("type", Relay.JStr "offer")])) Relay.two_clients
    = Normal (Relay.mkRelay (Relay.clients Relay.two_clients)
        [(2%nat,
          Relay.JObj
            [("event", Relay.JStr "webrtc_msg");
             ("data", Relay.JObj [("type", Relay.JStr "offer");
                                  ("socketID", Relay.JStr "a1")])])]).
Proof.
  refine (proj2 (offer_reaches_the_drone 0
    (mkDroneStream "b2" (Some playing_video) None (Some new))
    [("type", Relay.JStr "offer")] []
    (mkPage (createDroneStream "b2" (Some playing_video) true empty_client).2
       (Some []) [])
    1%nat 2%nat Relay.two_clients eq_refl (mk_is_Some _ _ eq_refl) eq_refl _ eq_refl)).
  discriminate.
Defined.

(** X21: an answer the drone sends through the relay is applied to the
    caller's peer connection. The drone addresses a ['webrtc_msg'] whose
    payload has type ['answer'] to the caller's id; the relay hands the
    caller's connection one frame; and the caller's socket handler, given
    that frame, calls [setRemoteDescription] on the stream it was set up
    for, with the payload carrying the drone's id as [socketID]. *)
Theorem answer_reaches_the_peer_connection
    (droneID : string) (a : nat) (stream : DroneStream) (pg : page)
    (answer : list (string * Relay.json)) (callerID : string)
    (caller drone : Relay.socket) (r : Relay.relay) :
  Relay.obj_get "type" answer = Some (Relay.JStr "answer") →
  callerID ≠ "" →
  Relay.Map_get_str callerID (Relay.clients r) = Some caller →
  ongoingStreams (manager pg) !! droneID = Some a →
  streams (manager pg) !! a = Some stream →
  is_Some (peerConnection stream) →
  ∃ frame,
    Relay.onMessage drone (envelope callerID (Relay.JObj answer)) r
      = Normal (Relay.mkRelay (Relay.clients r) (Relay.outbox r ++ [(caller, frame)])) ∧
    onmessage droneID frame pg
      = Normal (mkPage (manager pg) (socket pg)
          (signalling pg ++
             [SetRemoteDescription a
                (Relay.JObj
                   (Relay.obj_set "socketID"
                      (Relay.id_value (Relay.findClientID (Relay.clients r) drone))
                      answer))])).
Proof.
  intros Htype Hne Hreg Hd Hs [pc Hpc]. eexists. split.
  - unfold Relay.onMessage, Relay.requestedSocketID, envelope, mbind, completion_bind.
    simpl. destruct (String.eqb callerID "") eqn:E.
    + apply String.eqb_eq in E. done.
    + simpl. rewrite Hreg. reflexivity.
  - unfold onmessage, getStreamByDroneID, handleIncomingSocketMsg, mbind, completion_bind.
    simpl. rewrite Hd. simpl.
    rewrite RelayFacts.obj_get_set_ne by discriminate.
    rewrite Htype. simpl. by rewrite Hs, Hpc.
Qed.

Lemma answer_reaches_the_peer_connection_witness :
  ∃ frame,
    Relay.onMessage 2%nat
        (envelope "a1" (Relay.JObj [("type", Relay.JStr "answer")])) Relay.two_clients
      = Normal (Relay.mkRelay (Relay.clients Relay.two_clients) [(1%nat, frame)]) ∧
    onmessage "drone1" frame calling_drone1
      = Normal (mkPage one_call (Some [])
          [SetRemoteDescription 0
             (Relay.JObj [("type", Relay.JStr "answer");
                          ("socketID", Relay.JStr "b2")])]).
Proof.
  destruct (answer_reaches_the_peer_connection "drone1" 0
    (new_DroneStream "drone1" (Some playing_video) true) calling_drone1
    [("type", Relay.JStr "answer")] "a1" 1%nat 2%nat Relay.two_clients
    eq_refl ltac:(discriminate) eq_refl eq_refl eq_refl (mk_is_Some _ _ eq_refl))
    as (frame & H1 & H2).
  exists frame. split; [exact H1 | exact H2].
Defined.

End ManagerFacts.

(** * From the producer's tick to the published record *)

Module PipelineFacts.
Import Streamer Publisher.

Section Pipeline.

Variable toDataURL : VideoElement -> Z -> Z -> Q -> option string.
Variable base64 : string -> list Z.

(** X27: a frame the producer sends is published as it is. When a tick
    sends a frame and the consumer, initialised and idle, receives it
    outside its rate-limit window with a sink that accepts, exactly one
    record is added: its bytes are the decoded output of the producer's
    encoder, its format is ['jpeg'], its frame id ['camera_frame'], and it
    is stamped with the consumer's receive time, not with the producer's
    capture time. *)
Theorem sent_frame_is_published
    (now : Z) (s : ROS2ImageStreamer) (video : VideoElement)
    (sock : WebSocket) (base64Data : string)
    (p : ROS2ImagePublisherCompressed) (log : list CompressedImage)
    (received took : Z) :
  isStreaming s = true →
  videoElement s = Some video →
  ws s = Some sock →
  bufferedAmount sock ≤ 1024 * 50 →
  tooSoon (now - lastFrameTime s) (frameRate s) = false →
  2 ≤ v_readyState video →
  videoWidth video ≠ 0 →
  videoHeight video ≠ 0 →
  toDataURL video (Qfloor (inject_Z (videoWidth video) * scaleFactor s))
    (Qfloor (inject_Z (videoHeight video) * scaleFactor s)) (quality s)
    = Some base64Data →
  ws_readyState sock = OPEN →
  isInitialized p = true →
  publisher p = Some log →
  isProcessing p = false →
  ¬ (inject_Z (received - lastPublishTime p) < minPublishInterval p)%Q →
  ∃ f,
    (captureAndSendFrame toDataURL now s).2 = [WsSend f] ∧
    published (receive base64 p (mkArrival (Some (on_wire f)) received took true))
      = log ++ [mkCompressedImage (received / 1000) (Z.rem received 1000 * 1000000)
                  "camera_frame" "jpeg" (base64 base64Data)] ∧
    frameDropCount (receive base64 p (mkArrival (Some (on_wire f)) received took true))
      = Publisher.frameDropCount p.
Proof.
  intros Hs Hv Hw Hbuf Hsoon Hready Hwd Hht Henc Hopen Hi Hp Hb Hlate.
  eexists. split.
  - unfold captureAndSendFrame. rewrite Hs, Hv, Hw, Hsoon.
    destruct (Z.ltb_spec (1024 * 50) (bufferedAmount sock)); [lia|].
    destruct (Z.ltb_spec (v_readyState video) 2); [lia|].
    destruct (Z.eqb_spec (videoWidth video) 0); [done|].
    destruct (Z.eqb_spec (videoHeight video) 0); [done|].
    cbn [orb]. cbv zeta. rewrite Henc, Hopen. reflexivity.
  - assert (E : Qltb (inject_Z (received - lastPublishTime p)) (minPublishInterval p)
                = false).
    { destruct (Qltb _ _) eqn:E; [|done]. by apply Qltb_lt in E. }
    unfold receive, publishCompressedImageFrame, tryBlock, published, on_wire.
    simpl. rewrite Hi, Hp, E, Hb. simpl. done.
Qed.

End Pipeline.

Lemma sent_frame_is_published_witness :
  ∃ f,
    (captureAndSendFrame jpeg_stub 1100
       (streaming_at_10fps (mkWebSocket OPEN 0) playing_video)).2 = [WsSend f] ∧
    published (receive base64_stub ready_publisher
                 (mkArrival (Some (on_wire f)) 1130 1 true))
      = [mkCompressedImage 1 130000000 "camera_frame" "jpeg" (base64_stub "/9j/4AAQ")].
Proof.
  destruct (sent_frame_is_published jpeg_stub base64_stub 1100
    (streaming_at_10fps (mkWebSocket OPEN 0) playing_video)
    playing_video (mkWebSocket OPEN 0) "/9j/4AAQ" ready_publisher [] 1130 1
    eq_refl eq_refl eq_refl ltac:(simpl; lia) eq_refl ltac:(simpl; lia)
    ltac:(discriminate) ltac:(discriminate) eq_refl eq_refl eq_refl eq_refl eq_refl
    ltac:(intros H; vm_compute in H; discriminate))
    as (f & H1 & H2 & _).
  exists f. split; [exact H1 | exact H2].
Defined.

End PipelineFacts.
